(** * A software-PWM LED driver with two push-buttons

    Shallow embedding of [Project_DD/leds (1).c]: the debounce filter
    ([button_irq_handler]), the brightness state machine
    ([led_level_func], [update_led_state], the [fsm_functions] table), the
    software PWM engine ([led_ctrl_func]) and the start-up path
    ([pwm_led_init] and its helpers).

    C integers are mathematical integers of [Z] with the wrap-around of
    their width written out ([wrap]); the globals of the C file are the
    fields of [state], the module parameters and the two interrupt
    numbers (fixed once start-up is over) the fields of [config]. *)

From Stdlib Require Import ZArith List Bool Lia.
Import ListNotations.
Open Scope Z_scope.

(** ** Machine integers *)

Module CInt.

(** Two's complement reduction to [w] bits. The kernel is built with
    [-fno-strict-overflow], so signed arithmetic wraps, and a conversion
    to a narrower signed type keeps the low bits. *)
Definition wrap (w x : Z) : Z := (x + 2 ^ (w - 1)) mod 2 ^ w - 2 ^ (w - 1).

Definition INT_MAX : Z := 2147483647.
Definition INT_MIN : Z := -2147483648.

Definition to_int : Z -> Z := wrap 32.
Definition to_s64 : Z -> Z := wrap 64.

(** Width of [long]: 64 bits on an LP64 kernel, 32 on an ILP32 one. *)
Definition LP64 : Z := 64.
Definition ILP32 : Z := 32.

Definition int_sub (a b : Z) : Z := to_int (a - b).
Definition int_mul (a b : Z) : Z := to_int (a * b).

(** [a / b] on [int]: truncation toward zero. A zero divisor, and
    [INT_MIN / -1], have no result: the machine raises a divide error. *)
Definition int_div (a b : Z) : option Z :=
  if b =? 0 then None
  else if (a =? INT_MIN) && (b =? -1) then None
  else Some (Z.quot a b).

(** [!v] of C. *)
Definition lnot (v : Z) : Z := if v =? 0 then 1 else 0.

(** [atomic_inc] and [atomic_dec] on an [atomic_t], a wrapping [int]. *)
Definition atomic_inc (v : Z) : Z := to_int (v + 1).
Definition atomic_dec (v : Z) : Z := to_int (v - 1).

End CInt.

(** ** Time stamps *)

Module Time64.
Import CInt.

Definition MSEC_PER_SEC : Z := 1000.
Definition USEC_PER_SEC : Z := 1000000.
Definition NSEC_PER_MSEC : Z := 1000000.
Definition NSEC_PER_SEC : Z := 1000000000.

(** [KTIME_SEC_MAX] of the kernel: [(2^63 - 1) / NSEC_PER_SEC]. *)
Definition KTIME_SEC_MAX : Z := 9223372036.

Record timespec64 : Type := mk_ts { tv_sec : Z; tv_nsec : Z }.

(** The time stamp as a number of nanoseconds. *)
Definition timespec64_to_ns (t : timespec64) : Z :=
  tv_sec t * NSEC_PER_SEC + tv_nsec t.

(** [timespec64_valid_strict] of the kernel, which every reading of the
    real-time clock satisfies. *)
Definition timespec64_valid_strict (t : timespec64) : Prop :=
  0 <= tv_sec t <= KTIME_SEC_MAX /\ 0 <= tv_nsec t < NSEC_PER_SEC.

(** Platform helper of [linux/time64.h] (not a file of the driver):
    [set_normalized_timespec64] moves whole seconds out of [nsec] until
    [0 <= nsec < NSEC_PER_SEC]; its two loops compute the floor quotient
    and remainder below. *)
Definition set_normalized_timespec64 (sec nsec : Z) : timespec64 :=
  {| tv_sec := to_s64 (sec + nsec / NSEC_PER_SEC);
     tv_nsec := nsec mod NSEC_PER_SEC |}.

Definition timespec64_sub (lhs rhs : timespec64) : timespec64 :=
  set_normalized_timespec64 (tv_sec lhs - tv_sec rhs)
                            (tv_nsec lhs - tv_nsec rhs).

End Time64.

(** ** The driver's data *)

Module Led.
Import CInt Time64.

Definition BUTTON_DEBOUNCE : Z := 200.
Definition LED_MIN_LEVEL : Z := 0.
Definition LED_MAX_LEVEL_DEFAULT : Z := 5.
Definition PULSE_FREQUENCY_DEFAULT : Z := 100000.
Definition LOW : Z := 0.
Definition HIGH : Z := 1.

Inductive event : Type := NONE | UP | DOWN.

(** [enum led_state]. *)
Inductive led_state_t : Type := OFF | ON | MAX.

(** The three functions the dispatch table points to. *)
Inductive fsm_function : Type :=
| do_nothing
| increase_led_brightness
| decrease_led_brightness.

Inductive irqreturn_t : Type := IRQ_NONE | IRQ_HANDLED | IRQ_WAKE_THREAD.

(** What is fixed once [pwm_led_init] has returned: two module parameters
    and the interrupt numbers of the two buttons. *)
Record config : Type := mk_config {
  pulse_frequency : Z;
  led_max_level : Z;
  down_button_irq : Z;
  up_button_irq : Z
}.

(** The mutable globals, the output line of the LED, and for each of the
    two work items whether it is queued. *)
Record state : Type := mk_state {
  prev_down_button_irq : timespec64;
  prev_up_button_irq : timespec64;
  prev_led_switch : timespec64;
  led_level : Z;
  led_state : led_state_t;
  led_event : event;
  led_gpio_line : bool;
  led_level_work : bool;
  led_switch_work : bool
}.

Definition with_prev_down_button_irq (t : timespec64) (s : state) : state :=
  mk_state t (prev_up_button_irq s) (prev_led_switch s) (led_level s)
           (led_state s) (led_event s) (led_gpio_line s) (led_level_work s)
           (led_switch_work s).

Definition with_prev_up_button_irq (t : timespec64) (s : state) : state :=
  mk_state (prev_down_button_irq s) t (prev_led_switch s) (led_level s)
           (led_state s) (led_event s) (led_gpio_line s) (led_level_work s)
           (led_switch_work s).

Definition with_prev_led_switch (t : timespec64) (s : state) : state :=
  mk_state (prev_down_button_irq s) (prev_up_button_irq s) t (led_level s)
           (led_state s) (led_event s) (led_gpio_line s) (led_level_work s)
           (led_switch_work s).

Definition with_led_level (l : Z) (s : state) : state :=
  mk_state (prev_down_button_irq s) (prev_up_button_irq s) (prev_led_switch s)
           l (led_state s) (led_event s) (led_gpio_line s) (led_level_work s)
           (led_switch_work s).

Definition with_led_state (q : led_state_t) (s : state) : state :=
  mk_state (prev_down_button_irq s) (prev_up_button_irq s) (prev_led_switch s)
           (led_level s) q (led_event s) (led_gpio_line s) (led_level_work s)
           (led_switch_work s).

Definition with_led_event (e : event) (s : state) : state :=
  mk_state (prev_down_button_irq s) (prev_up_button_irq s) (prev_led_switch s)
           (led_level s) (led_state s) e (led_gpio_line s) (led_level_work s)
           (led_switch_work s).

Definition with_led_gpio_line (b : bool) (s : state) : state :=
  mk_state (prev_down_button_irq s) (prev_up_button_irq s) (prev_led_switch s)
           (led_level s) (led_state s) (led_event s) b (led_level_work s)
           (led_switch_work s).

Definition with_led_level_work (b : bool) (s : state) : state :=
  mk_state (prev_down_button_irq s) (prev_up_button_irq s) (prev_led_switch s)
           (led_level s) (led_state s) (led_event s) (led_gpio_line s) b
           (led_switch_work s).

Definition with_led_switch_work (b : bool) (s : state) : state :=
  mk_state (prev_down_button_irq s) (prev_up_button_irq s) (prev_led_switch s)
           (led_level s) (led_state s) (led_event s) (led_gpio_line s)
           (led_level_work s) b.

(** [gpio_set_value (led_gpio, v)]: the line is driven high iff [v] is not
    zero. [gpio_get_value (led_gpio)] reads it back as 0 or 1. *)
Definition gpio_set_value (v : Z) (s : state) : state :=
  with_led_gpio_line (negb (v =? 0)) s.

Definition gpio_get_value (s : state) : Z :=
  if led_gpio_line s then HIGH else LOW.

(** [schedule_work]: the item becomes queued; queueing a queued item
    changes nothing. *)
Definition schedule_led_level_work (s : state) : state :=
  with_led_level_work true s.

Definition schedule_led_switch_work (s : state) : state :=
  with_led_switch_work true s.

(** How a run of a work function ends: it returns, with the state it
    leaves and what it reported, or it stops at a division the machine
    cannot perform, with the state as it is at that point. *)
Inductive outcome (A : Type) : Type :=
| Returned (s : state) (a : A)
| DivideError (s : state).

Arguments Returned {A} s a.
Arguments DivideError {A} s.

Definition final_state {A : Type} (o : outcome A) : state :=
  match o with
  | Returned s _ => s
  | DivideError s => s
  end.

Definition returns {A : Type} (o : outcome A) : bool :=
  match o with
  | Returned _ _ => true
  | DivideError _ => false
  end.

(** ** Start-up of the brightness data *)

(** [validate_led_max_level], on the module parameter. *)
Definition validate_led_max_level (max_level : Z) : Z :=
  if max_level <? LED_MIN_LEVEL then LED_MIN_LEVEL else max_level.

(** The globals as their initialisers and the tail of [pwm_led_init] leave
    them: level [LED_MIN_LEVEL], state [OFF], no event, the three clocks
    read, the LED line low and the PWM work queued. *)
Definition initial_state (t_down t_up t_switch : timespec64) : state :=
  {| prev_down_button_irq := t_down;
     prev_up_button_irq := t_up;
     prev_led_switch := t_switch;
     led_level := LED_MIN_LEVEL;
     led_state := OFF;
     led_event := NONE;
     led_gpio_line := false;
     led_level_work := false;
     led_switch_work := true |}.

(** ** The brightness state machine *)

(** The table [fsm_functions [NUM_STATES][NUM_EVENTS]], rows in the order
    [OFF], [ON], [MAX] and columns in the order [NONE], [UP], [DOWN]. *)
Definition fsm_functions (q : led_state_t) (e : event) : fsm_function :=
  match q, e with
  | OFF, NONE => do_nothing
  | OFF, UP => increase_led_brightness
  | OFF, DOWN => do_nothing
  | ON, NONE => do_nothing
  | ON, UP => increase_led_brightness
  | ON, DOWN => decrease_led_brightness
  | MAX, NONE => do_nothing
  | MAX, UP => do_nothing
  | MAX, DOWN => decrease_led_brightness
  end.

(** The change of level a table entry stands for: none, +1 or -1. *)
Definition step_of (f : fsm_function) : Z :=
  match f with
  | do_nothing => 0
  | increase_led_brightness => 1
  | decrease_led_brightness => -1
  end.

(** Calling one of the three functions. *)
Definition call (f : fsm_function) (s : state) : state :=
  match f with
  | do_nothing => s
  | increase_led_brightness => with_led_level (atomic_inc (led_level s)) s
  | decrease_led_brightness => with_led_level (atomic_dec (led_level s)) s
  end.

Definition classify (cfg : config) (level : Z) : led_state_t :=
  if level =? LED_MIN_LEVEL then OFF
  else if level =? led_max_level cfg then MAX
  else ON.

Definition update_led_state (cfg : config) (s : state) : state :=
  with_led_state (classify cfg (led_level s)) s.

(** [led_level_func]: dispatch, recompute the state, then report the
    brightness in percent and the raw level. *)
Definition led_level_func (cfg : config) (s : state) : outcome (Z * Z) :=
  let s1 := call (fsm_functions (led_state s) (led_event s)) s in
  let s2 := update_led_state cfg s1 in
  let level := led_level s2 in
  match int_div (int_mul 100 level) (led_max_level cfg) with
  | Some led_brightness_percent =>
      Returned s2 (led_brightness_percent, level)
  | None => DivideError s2
  end.

(** The worker thread picks up the queued brightness work: the item
    leaves the queue, then its function runs. *)
Definition run_led_level_work (cfg : config) (s : state)
  : option (outcome (Z * Z)) :=
  if led_level_work s
  then Some (led_level_func cfg (with_led_level_work false s))
  else None.

(** One accepted button event from the handler's store to the end of the
    state-machine run it triggers. *)
Definition process_event (cfg : config) (s : state) (e : event) : state :=
  final_state (led_level_func cfg (with_led_event e s)).

Definition process_events (cfg : config) (s : state) (es : list event)
  : state :=
  fold_left (process_event cfg) es s.

(** The level is within its range and the stored state is the one
    computed from it. *)
Definition consistent (cfg : config) (s : state) : Prop :=
  0 <= led_level s <= led_max_level cfg
  /\ led_state s = classify cfg (led_level s).

(** ** The debounce filter *)

(** [millis_since_last_irq], a [long] of [lb] bits (32 or 64 by target):
    [((long)interval.tv_sec * MSEC_PER_SEC) + (interval.tv_nsec / NSEC_PER_MSEC)]. *)
Definition millis_since (lb : Z) (interval : timespec64) : Z :=
  wrap lb (wrap lb (wrap lb (tv_sec interval) * MSEC_PER_SEC)
           + Z.quot (tv_nsec interval) NSEC_PER_MSEC).

Definition button_irq_handler (lb : Z) (cfg : config) (irq : Z)
    (now : timespec64) (s : state) : irqreturn_t * state :=
  if irq =? down_button_irq cfg then
    let interval := timespec64_sub now (prev_down_button_irq s) in
    if millis_since lb interval <? BUTTON_DEBOUNCE then (IRQ_HANDLED, s)
    else
      (IRQ_HANDLED,
       schedule_led_level_work
         (with_led_event DOWN (with_prev_down_button_irq now s)))
  else if irq =? up_button_irq cfg then
    let interval := timespec64_sub now (prev_up_button_irq s) in
    if millis_since lb interval <? BUTTON_DEBOUNCE then (IRQ_HANDLED, s)
    else
      (IRQ_HANDLED,
       schedule_led_level_work
         (with_led_event UP (with_prev_up_button_irq now s)))
  else (IRQ_HANDLED, schedule_led_level_work s).

(** ** The software PWM engine *)

(** [nanos_since_led_switch], an [int] assigned from the 64-bit value
    [(diff.tv_sec * USEC_PER_SEC) + diff.tv_nsec]. *)
Definition nanos_since (diff : timespec64) : Z :=
  to_int (to_s64 (to_s64 (tv_sec diff * USEC_PER_SEC) + tv_nsec diff)).

(** [pulse_frequency * level / led_max_level] on [int]. *)
Definition high_share (cfg : config) (level : Z) : option Z :=
  int_div (int_mul (pulse_frequency cfg) level) (led_max_level cfg).

(** [required_delay] for the value read from the LED line. *)
Definition required_delay (cfg : config) (led_gpio_value level : Z)
  : option Z :=
  match high_share cfg level with
  | Some q =>
      Some (if led_gpio_value =? LOW
            then int_sub (pulse_frequency cfg) q
            else q)
  | None => None
  end.

Definition led_ctrl_func (cfg : config) (now : timespec64) (s : state)
  : outcome unit :=
  let diff := timespec64_sub now (prev_led_switch s) in
  let nanos_since_led_switch := nanos_since diff in
  let level := led_level s in
  if (level =? LED_MIN_LEVEL) || (level =? led_max_level cfg) then
    Returned
      (schedule_led_switch_work
         (gpio_set_value (if level =? LED_MIN_LEVEL then LOW else HIGH) s))
      tt
  else
    let led_gpio_value := gpio_get_value s in
    match required_delay cfg led_gpio_value level with
    | None => DivideError s
    | Some delay =>
        let s' :=
          if nanos_since_led_switch >=? delay
          then with_prev_led_switch now
                 (gpio_set_value (lnot led_gpio_value) s)
          else s in
        Returned (schedule_led_switch_work s') tt
    end.

End Led.

(** ** Start-up: lines and interrupts *)

Module Startup.

Definition EINVAL : Z := 22.
Definition EBUSY : Z := 16.

Inductive direction : Type := INPUT | OUTPUT.

(** The three line numbers, module parameters. *)
Record lines : Type := mk_lines {
  down_button_gpio : Z;
  up_button_gpio : Z;
  led_gpio : Z
}.

(** The board behind gpiolib and the interrupt core: which line numbers
    exist, what a request for a free line or for a free interrupt returns
    (0, or a negative errno), and the interrupt number of a line. *)
Record board : Type := mk_board {
  gpio_is_valid : Z -> bool;
  gpio_request_result : Z -> Z;
  gpio_to_irq : Z -> Z;
  request_irq_result : Z -> Z
}.

(** What the module holds: requested lines and registered interrupts. *)
Record held : Type := mk_held {
  held_gpios : list Z;
  held_irqs : list Z
}.

Definition nothing_held : held := mk_held [] [].

Definition mem (x : Z) (l : list Z) : bool := existsb (Z.eqb x) l.

(** [gpio_request]: a line already requested is busy. *)
Definition gpio_request (b : board) (gpio : Z) (h : held) : Z * held :=
  if mem gpio (held_gpios h) then (- EBUSY, h)
  else
    let ret := gpio_request_result b gpio in
    if ret <? 0 then (ret, h)
    else (ret, mk_held (gpio :: held_gpios h) (held_irqs h)).

Definition gpio_free (gpio : Z) (h : held) : held :=
  mk_held (remove Z.eq_dec gpio (held_gpios h)) (held_irqs h).

(** [request_irq] without [IRQF_SHARED]: an interrupt that has a handler
    is busy. *)
Definition request_irq (b : board) (irq : Z) (h : held) : Z * held :=
  if mem irq (held_irqs h) then (- EBUSY, h)
  else
    let ret := request_irq_result b irq in
    if ret <? 0 then (ret, h)
    else (ret, mk_held (held_gpios h) (irq :: held_irqs h)).

Definition free_irq (irq : Z) (h : held) : held :=
  mk_held (held_gpios h) (remove Z.eq_dec irq (held_irqs h)).

(** [setup_pwm_led_gpio]; the direction calls change no holding. *)
Definition setup_pwm_led_gpio (b : board) (gpio : Z) (d : direction)
    (h : held) : Z * held :=
  if negb (gpio_is_valid b gpio) then (- EINVAL, h)
  else
    let (ret, h1) := gpio_request b gpio h in
    if ret <? 0 then (ret, h1) else (ret, h1).

Definition setup_pwm_led_gpios (b : board) (p : lines) (h : held)
  : Z * held :=
  let (ret, h1) := setup_pwm_led_gpio b (down_button_gpio p) INPUT h in
  if negb (ret =? 0) then (ret, h1)
  else
    let (ret, h2) := setup_pwm_led_gpio b (up_button_gpio p) INPUT h1 in
    if negb (ret =? 0) then (ret, h2)
    else
      let (ret, h3) := setup_pwm_led_gpio b (led_gpio p) OUTPUT h2 in
      if negb (ret =? 0) then (ret, h3) else (ret, h3).

Definition unset_pwm_led_gpios (p : lines) (h : held) : held :=
  gpio_free (led_gpio p)
    (gpio_free (up_button_gpio p) (gpio_free (down_button_gpio p) h)).

(** [setup_pwm_led_irq]: the return code, the number stored through
    [irq], and the holdings. *)
Definition setup_pwm_led_irq (b : board) (gpio : Z) (h : held)
  : Z * Z * held :=
  let irq := gpio_to_irq b gpio in
  if irq <? 0 then (irq, irq, h)
  else
    let (ret, h1) := request_irq b irq h in
    if ret <? 0 then (ret, irq, h1) else (ret, irq, h1).

Definition setup_pwm_led_irqs (b : board) (p : lines) (h : held)
  : Z * held :=
  let '(ret, down_button_irq, h1) :=
    setup_pwm_led_irq b (down_button_gpio p) h in
  if negb (ret =? 0) then (ret, h1)
  else
    let '(ret, _, h2) := setup_pwm_led_irq b (up_button_gpio p) h1 in
    if negb (ret =? 0) then (ret, free_irq down_button_irq h2)
    else (ret, h2).

(** [pwm_led_init], its lines and interrupts: the code returned to the
    module loader and what is still held when it returns. (Its first
    statement is [Led.validate_led_max_level]; on success its last ones
    leave the clocks and the PWM work as in [Led.initial_state].) *)
Definition pwm_led_init (b : board) (p : lines) (h : held) : Z * held :=
  let (ret, h1) := setup_pwm_led_gpios b p h in
  if negb (ret =? 0) then (ret, h1)
  else
    let (ret, h2) := setup_pwm_led_irqs b p h1 in
    if negb (ret =? 0) then (ret, unset_pwm_led_gpios p h2)
    else (ret, h2).

(** A board on which lines 0..511 exist and every request for a free
    line or interrupt succeeds. *)
Definition plain_board : board :=
  {| gpio_is_valid := fun g => (0 <=? g) && (g <? 512);
     gpio_request_result := fun _ => 0;
     gpio_to_irq := fun g => g + 160;
     request_irq_result := fun _ => 0 |}.

End Startup.

(** ** Runs of the two work items *)

Module Work.
Import CInt Time64 Led.

(** The worker thread picks up the queued PWM work: the item leaves the
    queue, then [led_ctrl_func] runs at the time the clock shows. *)
Definition run_led_switch_work (cfg : config) (now : timespec64) (s : state)
  : option (outcome unit) :=
  if led_switch_work s
  then Some (led_ctrl_func cfg now (with_led_switch_work false s))
  else None.

(** Successive iterations of [led_ctrl_func], one per clock reading. *)
Definition pwm_iterations (cfg : config) (s : state) (nows : list timespec64)
  : state :=
  fold_left (fun s now => final_state (led_ctrl_func cfg now s)) nows s.

(** A counter that saturates by arithmetic: the level an event would give
    if the level were clamped to [0, max_level] instead of being guarded
    by the table. *)
Definition clamped_step (max_level level : Z) (e : event) : Z :=
  match e with
  | NONE => level
  | UP => Z.min (level + 1) max_level
  | DOWN => Z.max (level - 1) 0
  end.

(** [cancel_work_sync]: the item leaves the queue; when the call returns
    its function is not running. *)
Definition cancel_led_level_work (s : state) : state :=
  with_led_level_work false s.

Definition cancel_led_switch_work (s : state) : state :=
  with_led_switch_work false s.

(** The handler's millisecond count cannot wrap: [long] has 64 bits, or
    it has 32 bits and the edge is less than 2147483 s away from the
    clock it is compared with. *)
Definition millis_fit (lb : Z) (now clock : timespec64) : Prop :=
  lb = LP64
  \/ (lb = ILP32
      /\ - 2147483 * NSEC_PER_SEC
         <= timespec64_to_ns now - timespec64_to_ns clock
         < 2147483 * NSEC_PER_SEC).

End Work.

(** ** Unloading *)

Module Teardown.
Import Startup.

(** The numbers [setup_pwm_led_irqs] leaves in the globals
    [down_button_irq] and [up_button_irq] (both 0 before): each call of
    [setup_pwm_led_irq] stores what [gpio_to_irq] returned, and the second
    call is made only when the first returned 0. *)
Definition stored_irqs (b : board) (p : lines) (h : held) : Z * Z :=
  let '(ret, down_button_irq, h1) :=
    setup_pwm_led_irq b (down_button_gpio p) h in
  if negb (ret =? 0) then (down_button_irq, 0)
  else
    let '(_, up_button_irq, _) := setup_pwm_led_irq b (up_button_gpio p) h1 in
    (down_button_irq, up_button_irq).

(** The globals after [pwm_led_init]: the interrupt calls are reached
    only when the three lines were acquired. *)
Definition irqs_after_init (b : board) (p : lines) (h : held) : Z * Z :=
  let (ret, h1) := setup_pwm_led_gpios b p h in
  if negb (ret =? 0) then (0, 0) else stored_irqs b p h1.

(** [pwm_led_exit]: both work items cancelled, both interrupts freed,
    the three lines freed. *)
Definition pwm_led_exit (p : lines) (down_button_irq up_button_irq : Z)
    (s : Led.state) (h : held) : Led.state * held :=
  let s1 := Work.cancel_led_level_work s in
  let s2 := Work.cancel_led_switch_work s1 in
  let h1 := free_irq down_button_irq h in
  let h2 := free_irq up_button_irq h1 in
  (s2, unset_pwm_led_gpios p h2).



(** The board lets the module load: the three lines exist, are pairwise
    different and are granted, and the two button lines map to two
    different interrupts that are granted. *)
Definition loadable (b : board) (p : lines) : Prop :=
  (gpio_is_valid b (down_button_gpio p) = true
   /\ gpio_is_valid b (up_button_gpio p) = true
   /\ gpio_is_valid b (led_gpio p) = true)
  /\ (down_button_gpio p <> up_button_gpio p
      /\ down_button_gpio p <> led_gpio p
      /\ up_button_gpio p <> led_gpio p)
  /\ (gpio_request_result b (down_button_gpio p) = 0
      /\ gpio_request_result b (up_button_gpio p) = 0
      /\ gpio_request_result b (led_gpio p) = 0)
  /\ (0 <= gpio_to_irq b (down_button_gpio p)
      /\ 0 <= gpio_to_irq b (up_button_gpio p)
      /\ gpio_to_irq b (down_button_gpio p)
         <> gpio_to_irq b (up_button_gpio p))
  /\ (request_irq_result b (gpio_to_irq b (down_button_gpio p)) = 0
      /\ request_irq_result b (gpio_to_irq b (up_button_gpio p)) = 0).

End Teardown.

(** ** Concrete configurations used below *)

Module Sample.
Import CInt Time64 Led.

(** A clock reading. *)
Definition t0 : timespec64 := mk_ts 1000 0.

(** The defaults of the module parameters; the buttons on interrupts 183
    (down) and 184 (up). *)
Definition default_config : config :=
  mk_config PULSE_FREQUENCY_DEFAULT
            (validate_led_max_level LED_MAX_LEVEL_DEFAULT) 183 184.

(** The module loaded with [led_max_level=0]. *)
Definition zero_max_config : config :=
  mk_config PULSE_FREQUENCY_DEFAULT (validate_led_max_level 0) 183 184.

Definition boot : state := initial_state t0 t0 t0.

(** Level 2 of 5 reached by two accepted [UP] events. *)
Definition dimmed : state := process_events default_config boot [UP; UP].

(** A period of two seconds and two levels above off. *)
Definition slow_config : config := mk_config 2000000000 2 183 184.

(** Level 1 of 2 with the LED line high. *)
Definition slow_lit : state :=
  with_led_gpio_line true (process_events slow_config boot [UP]).

End Sample.

(** * Properties *)

(** ** Machine integers and time stamps *)

Section MachineFacts.
Import CInt Time64.

Lemma wrap_in_range (w x : Z) :
  0 < w -> - 2 ^ (w - 1) <= x < 2 ^ (w - 1) -> wrap w x = x.
Proof.
  intros Hw Hx. unfold wrap.
  assert (Hp : 2 ^ w = 2 * 2 ^ (w - 1)).
  { replace w with (Z.succ (w - 1)) at 1 by lia. apply Z.pow_succ_r. lia. }
  rewrite Z.mod_small; lia.
Qed.

Lemma to_int_in_range (x : Z) : INT_MIN <= x <= INT_MAX -> to_int x = x.
Proof.
  unfold INT_MIN, INT_MAX, to_int. intros Hx.
  apply wrap_in_range; [lia|]. change (2 ^ (32 - 1)) with 2147483648. lia.
Qed.

Lemma to_s64_in_range (x : Z) :
  - 9223372036854775808 <= x < 9223372036854775808 -> to_s64 x = x.
Proof.
  unfold to_s64. intros Hx.
  apply wrap_in_range; [lia|].
  change (2 ^ (64 - 1)) with 9223372036854775808. lia.
Qed.

(** The difference of two clock readings is normalised, is the exact
    difference in nanoseconds, and its seconds stay far from the ends of
    64 bits. *)
Lemma timespec64_sub_valid (a b : timespec64) :
  timespec64_valid_strict a -> timespec64_valid_strict b ->
  tv_sec (timespec64_sub a b) * NSEC_PER_SEC + tv_nsec (timespec64_sub a b)
    = timespec64_to_ns a - timespec64_to_ns b
  /\ 0 <= tv_nsec (timespec64_sub a b) < NSEC_PER_SEC
  /\ - KTIME_SEC_MAX - 1 <= tv_sec (timespec64_sub a b) <= KTIME_SEC_MAX.
Proof.
  unfold timespec64_valid_strict, timespec64_to_ns, timespec64_sub,
    set_normalized_timespec64, KTIME_SEC_MAX, NSEC_PER_SEC.
  intros [Ha1 Ha2] [Hb1 Hb2]. cbn [tv_sec tv_nsec].
  set (dn := tv_nsec a - tv_nsec b) in *.
  pose proof (Z.div_mod dn 1000000000 ltac:(lia)) as Hdm.
  pose proof (Z.mod_pos_bound dn 1000000000 ltac:(lia)) as Hmb.
  assert (Hq : -1 <= dn / 1000000000 <= 0) by (subst dn; nia).
  rewrite to_s64_in_range by lia.
  subst dn. lia.
Qed.

End MachineFacts.

(** ** The brightness state machine *)

Section StateMachine.
Import CInt Time64 Led Sample.

Lemma classify_cases (cfg : config) (l : Z) :
  (classify cfg l = OFF <-> l = 0)
  /\ (classify cfg l = MAX <-> l = led_max_level cfg /\ l <> 0)
  /\ (classify cfg l = ON <-> l <> 0 /\ l <> led_max_level cfg).
Proof.
  unfold classify, LED_MIN_LEVEL.
  destruct (Z.eqb_spec l 0) as [H0|H0];
    [|destruct (Z.eqb_spec l (led_max_level cfg)) as [Hm|Hm]];
    repeat split; intros; try discriminate; try lia; tauto.
Qed.

Lemma final_state_led_level_func (cfg : config) (s : state) :
  final_state (led_level_func cfg s)
  = update_led_state cfg (call (fsm_functions (led_state s) (led_event s)) s).
Proof.
  unfold led_level_func.
  destruct (int_div _ _); reflexivity.
Qed.

Lemma led_level_call (f : fsm_function) (s : state) :
  INT_MIN < led_level s < INT_MAX ->
  led_level (call f s) = led_level s + step_of f.
Proof.
  intros H. destruct f; cbn [call step_of with_led_level led_level];
    unfold atomic_inc, atomic_dec; try rewrite to_int_in_range; lia.
Qed.

(** C3, as the claim states the recomputation, fails when the maximum level
    is 0: after a run from the initial state the level is 0, which is the
    maximum level, and the state is [OFF], not [MAX]. *)
Lemma recompute_max_iff_fails_at_zero_max_level :
  let s' := final_state (led_level_func zero_max_config boot) in
  ~ ((led_state s' = OFF <-> led_level s' = 0)
     /\ (led_state s' = MAX <-> led_level s' = led_max_level zero_max_config)
     /\ (led_state s' = ON <->
         led_level s' <> 0 /\ led_level s' <> led_max_level zero_max_config)).
Proof.
  cbv zeta. intros (_ & [_ H] & _).
  assert (E : led_state (final_state (led_level_func zero_max_config boot)) = MAX)
    by (apply H; reflexivity).
  vm_compute in E. discriminate E.
Qed.

(** C3 (amended). The table has exactly the nine entries of the spec's
    table: [OFF] gives (no-op, +1, no-op), [ON] gives (no-op, +1, -1),
    [MAX] gives (no-op, no-op, -1) for ([NONE], [UP], [DOWN]). Every run of
    [led_level_func] applies the one entry selected by the stored state and
    the pending event to the level (a change of 0, +1 or -1 when the level
    is not at an end of [int]) and then recomputes the state from the new
    level: [OFF] iff the level is 0, [MAX] iff the level is the maximum
    level and is not 0, [ON] otherwise. *)
Theorem fsm_table_dispatch_and_recompute :
  (fsm_functions OFF NONE = do_nothing
   /\ fsm_functions OFF UP = increase_led_brightness
   /\ fsm_functions OFF DOWN = do_nothing)
  /\ (fsm_functions ON NONE = do_nothing
      /\ fsm_functions ON UP = increase_led_brightness
      /\ fsm_functions ON DOWN = decrease_led_brightness)
  /\ (fsm_functions MAX NONE = do_nothing
      /\ fsm_functions MAX UP = do_nothing
      /\ fsm_functions MAX DOWN = decrease_led_brightness)
  /\ forall (cfg : config) (s : state),
       let f := fsm_functions (led_state s) (led_event s) in
       let s' := final_state (led_level_func cfg s) in
       s' = update_led_state cfg (call f s)
       /\ (INT_MIN < led_level s < INT_MAX ->
           led_level s' = led_level s + step_of f)
       /\ (led_state s' = OFF <-> led_level s' = 0)
       /\ (led_state s' = MAX <->
           led_level s' = led_max_level cfg /\ led_level s' <> 0)
       /\ (led_state s' = ON <->
           led_level s' <> 0 /\ led_level s' <> led_max_level cfg).
Proof.
  do 3 (split; [repeat split|]).
  intros cfg s f s'.
  assert (E : s' = update_led_state cfg (call f s))
    by apply final_state_led_level_func.
  split; [exact E|].
  split.
  - intros Hr. rewrite E. apply (led_level_call f s Hr).
  - rewrite E. cbn [update_led_state with_led_state led_state led_level].
    apply classify_cases.
Qed.

(** The amended C3 at the default configuration: from level 2, state [ON]
    and a pending [UP], the run leaves level 3 and state [ON]. *)
Lemma fsm_table_dispatch_and_recompute_witness :
  let s := with_led_event UP (with_led_state ON (with_led_level 2 boot)) in
  let s' := final_state (led_level_func default_config s) in
  INT_MIN < led_level s < INT_MAX
  /\ led_level s' = led_level s + step_of (fsm_functions ON UP)
  /\ led_level s' = 3.
Proof.
  cbv zeta.
  assert (R : INT_MIN <
              led_level (with_led_event UP (with_led_state ON (with_led_level 2 boot)))
              < INT_MAX) by (vm_compute; split; reflexivity).
  split; [exact R|]. split.
  - exact (proj1 (proj2 (proj2 (proj2 (proj2 fsm_table_dispatch_and_recompute))
                           default_config
                           (with_led_event UP
                              (with_led_state ON (with_led_level 2 boot))))) R).
  - reflexivity.
Defined.

End StateMachine.

(** ** Range of the level and saturation *)

Section Saturation.
Import CInt Time64 Led Sample.

Variable cfg : config.
Hypothesis max_level_positive : 1 <= led_max_level cfg <= INT_MAX.

Lemma process_event_state (s : state) (e : event) :
  process_event cfg s e
  = update_led_state cfg
      (call (fsm_functions (led_state s) e) (with_led_event e s)).
Proof.
  unfold process_event. rewrite final_state_led_level_func. reflexivity.
Qed.

(** The level after one event, in closed form. *)
Lemma process_event_level (s : state) (e : event) :
  consistent cfg s ->
  led_level (process_event cfg s e)
  = match e with
    | NONE => led_level s
    | UP => Z.min (led_level s + 1) (led_max_level cfg)
    | DOWN => Z.max (led_level s - 1) 0
    end.
Proof.
  intros [Hr Hq]. rewrite process_event_state.
  unfold INT_MAX in *.
  cbn [update_led_state with_led_state led_level].
  rewrite Hq. unfold classify, LED_MIN_LEVEL.
  destruct (Z.eqb_spec (led_level s) 0) as [H0|H0];
    [|destruct (Z.eqb_spec (led_level s) (led_max_level cfg)) as [Hm|Hm]];
    destruct e;
    cbn [fsm_functions call with_led_level with_led_event led_level];
    unfold atomic_inc, atomic_dec;
    try (rewrite to_int_in_range by (unfold INT_MIN, INT_MAX; lia)); lia.
Qed.

Lemma process_event_consistent (s : state) (e : event) :
  consistent cfg s -> consistent cfg (process_event cfg s e).
Proof.
  intros Hc. split.
  - rewrite (process_event_level s e Hc). destruct Hc as [Hr _].
    destruct e; lia.
  - rewrite process_event_state. reflexivity.
Qed.

Lemma initial_state_consistent (t1 t2 t3 : timespec64) :
  consistent cfg (initial_state t1 t2 t3).
Proof.
  split; cbn [initial_state led_level led_state]; unfold LED_MIN_LEVEL.
  - lia.
  - reflexivity.
Qed.

Lemma process_events_consistent (es : list event) (s : state) :
  consistent cfg s -> consistent cfg (process_events cfg s es).
Proof.
  revert s. induction es as [|e es IH]; intros s Hc; [exact Hc|].
  cbn [process_events fold_left]. apply IH.
  apply process_event_consistent, Hc.
Qed.

Lemma process_ups_level (n : nat) (s : state) :
  consistent cfg s ->
  led_level (process_events cfg s (repeat UP n))
  = Z.min (led_level s + Z.of_nat n) (led_max_level cfg).
Proof.
  revert s. induction n as [|n IH]; intros s Hc.
  - cbn [repeat process_events fold_left]. destruct Hc as [Hr _]. lia.
  - cbn [repeat process_events fold_left].
    change (fold_left (process_event cfg) (repeat UP n) (process_event cfg s UP))
      with (process_events cfg (process_event cfg s UP) (repeat UP n)).
    rewrite (IH _ (process_event_consistent s UP Hc)).
    rewrite (process_event_level s UP Hc). destruct Hc as [Hr _]. lia.
Qed.

Lemma process_downs_level (n : nat) (s : state) :
  consistent cfg s ->
  led_level (process_events cfg s (repeat DOWN n))
  = Z.max (led_level s - Z.of_nat n) 0.
Proof.
  revert s. induction n as [|n IH]; intros s Hc.
  - cbn [repeat process_events fold_left]. destruct Hc as [Hr _]. lia.
  - cbn [repeat process_events fold_left].
    change (fold_left (process_event cfg) (repeat DOWN n)
                      (process_event cfg s DOWN))
      with (process_events cfg (process_event cfg s DOWN) (repeat DOWN n)).
    rewrite (IH _ (process_event_consistent s DOWN Hc)).
    rewrite (process_event_level s DOWN Hc). destruct Hc as [Hr _]. lia.
Qed.

End Saturation.

Section MaxLevelZero.
Import CInt Time64 Led Sample.

Lemma int_div_defined (a b : Z) : 1 <= b -> int_div a b = Some (Z.quot a b).
Proof.
  intros Hb. unfold int_div.
  destruct (Z.eqb_spec b 0) as [H0|_]; [lia|].
  destruct (Z.eqb_spec b (-1)) as [H1|_]; [lia|].
  rewrite andb_false_r. reflexivity.
Qed.

(** C1. Start-up turns a maximum level of 0, and every negative one, into
    0; with that configuration every run of [led_level_func], from any
    state, stops at the division [100 * level / led_max_level], whose
    divisor is 0: the run does not return. *)
Theorem led_level_func_divide_error_at_zero_max_level :
  validate_led_max_level 0 = 0
  /\ (forall p : positive, validate_led_max_level (Z.neg p) = 0)
  /\ forall (pf d u : Z) (s : state),
       returns
         (led_level_func (mk_config pf (validate_led_max_level 0) d u) s)
       = false.
Proof.
  split; [reflexivity|]. split; [intros p; reflexivity|].
  intros pf d u s. reflexivity.
Qed.

(** C2. With maximum level 0, one accepted [UP] from the initial state
    (level 0, state [OFF]) leaves level 1, outside [0, 0]; the PWM engine
    reads that level and stops at its own division by the maximum level. *)
Theorem level_leaves_range_at_zero_max_level :
  let s := process_events zero_max_config boot [UP] in
  led_max_level zero_max_config = 0
  /\ led_level s = 1
  /\ ~ (0 <= led_level s <= led_max_level zero_max_config)
  /\ forall now : timespec64,
       led_ctrl_func zero_max_config now s = DivideError s.
Proof.
  cbv zeta. split; [reflexivity|]. split; [reflexivity|]. split.
  - vm_compute. intros [_ H]. apply H. reflexivity.
  - intros now. reflexivity.
Qed.

(** C6. With maximum level 0, one accepted [UP] from level 0 leaves level
    1 and three leave level 3, while [min (N, MaxLevel)] is 0. *)
Theorem ups_not_saturated_at_zero_max_level :
  led_level (process_events zero_max_config boot (repeat UP 1)) = 1
  /\ led_level (process_events zero_max_config boot (repeat UP 3)) = 3
  /\ Z.min 1 (led_max_level zero_max_config) = 0
  /\ Z.min 3 (led_max_level zero_max_config) = 0.
Proof.
  repeat split; reflexivity.
Qed.

(** With a maximum level of at least 1 (and within [int]), the level stays
    in [0, MaxLevel] along every sequence of events from the initial
    state. *)
Theorem level_in_range_for_positive_max_level
    (cfg : config) (es : list event) (t1 t2 t3 : timespec64) :
  1 <= led_max_level cfg <= INT_MAX ->
  0 <= led_level (process_events cfg (initial_state t1 t2 t3) es)
    <= led_max_level cfg.
Proof.
  intros Hm.
  apply (process_events_consistent cfg Hm es).
  apply initial_state_consistent, Hm.
Qed.

Lemma level_in_range_for_positive_max_level_witness :
  1 <= led_max_level default_config <= INT_MAX
  /\ 0 <= led_level (process_events default_config (initial_state t0 t0 t0)
                                    [UP; UP; DOWN; UP])
       <= led_max_level default_config.
Proof.
  assert (H : 1 <= led_max_level default_config <= INT_MAX)
    by (vm_compute; split; discriminate).
  split; [exact H|].
  exact (level_in_range_for_positive_max_level
           default_config [UP; UP; DOWN; UP] t0 t0 t0 H).
Defined.

(** With a maximum level of at least 1, [N] accepted [UP] events from the
    initial state leave level [min (N, MaxLevel)], and [N] accepted [DOWN]
    events from level [MaxLevel] (state [MAX]) leave level
    [max (MaxLevel - N, 0)]. *)
Theorem saturation_for_positive_max_level
    (cfg : config) (n : nat) (t1 t2 t3 : timespec64) :
  1 <= led_max_level cfg <= INT_MAX ->
  led_level (process_events cfg (initial_state t1 t2 t3) (repeat UP n))
  = Z.min (Z.of_nat n) (led_max_level cfg)
  /\ forall s : state,
       led_level s = led_max_level cfg -> led_state s = MAX ->
       led_level (process_events cfg s (repeat DOWN n))
       = Z.max (led_max_level cfg - Z.of_nat n) 0.
Proof.
  intros Hm. split.
  - rewrite (process_ups_level cfg Hm n _ (initial_state_consistent cfg Hm t1 t2 t3)).
    reflexivity.
  - intros s Hl Hq.
    assert (Hc : consistent cfg s).
    { split; [lia|]. rewrite Hq, Hl. unfold classify, LED_MIN_LEVEL.
      destruct (Z.eqb_spec (led_max_level cfg) 0) as [H0|_]; [lia|].
      rewrite Z.eqb_refl. reflexivity. }
    rewrite (process_downs_level cfg Hm n s Hc), Hl. reflexivity.
Qed.

Lemma saturation_for_positive_max_level_witness :
  1 <= led_max_level default_config <= INT_MAX
  /\ led_level (process_events default_config (initial_state t0 t0 t0)
                               (repeat UP 7)) = 5.
Proof.
  assert (H : 1 <= led_max_level default_config <= INT_MAX)
    by (vm_compute; split; discriminate).
  split; [exact H|].
  exact (proj1 (saturation_for_positive_max_level default_config 7 t0 t0 t0 H)).
Defined.

(** With a maximum level of at least 1, neither work function can stop at
    a division: both always return. *)
Theorem work_functions_return_for_positive_max_level
    (cfg : config) (now : timespec64) (s : state) :
  1 <= led_max_level cfg ->
  returns (led_level_func cfg s) = true
  /\ returns (led_ctrl_func cfg now s) = true.
Proof.
  intros Hm. split.
  - unfold led_level_func. rewrite int_div_defined by exact Hm. reflexivity.
  - unfold led_ctrl_func, required_delay, high_share.
    rewrite int_div_defined by exact Hm.
    destruct (_ || _); reflexivity.
Qed.

Lemma work_functions_return_for_positive_max_level_witness :
  1 <= led_max_level default_config
  /\ returns (led_level_func default_config boot) = true
  /\ returns (led_ctrl_func default_config t0 boot) = true.
Proof.
  assert (H : 1 <= led_max_level default_config) by (vm_compute; discriminate).
  split; [exact H|].
  exact (work_functions_return_for_positive_max_level default_config t0 boot H).
Defined.

End MaxLevelZero.

(** ** The software PWM engine *)

Section PwmEngine.
Import CInt Time64 Led Sample.

Lemma quot_share_bounds (p l m : Z) :
  0 < l < m ->
  (0 <= p -> 0 <= Z.quot (p * l) m <= p)
  /\ (p <= 0 -> p <= Z.quot (p * l) m <= 0).
Proof.
  intros Hl.
  pose proof (Z.quot_rem' (p * l) m) as Hqr.
  split; intros Hp.
  - pose proof (Z.rem_bound_pos (p * l) m ltac:(nia) ltac:(lia)) as Hr. nia.
  - pose proof (Z.rem_bound_pos_neg (p * l) m ltac:(lia) ltac:(nia)) as Hr. nia.
Qed.

Lemma required_delay_in_range (cfg : config) (level : Z) :
  0 < level < led_max_level cfg ->
  INT_MIN <= pulse_frequency cfg <= INT_MAX ->
  INT_MIN <= pulse_frequency cfg * level <= INT_MAX ->
  required_delay cfg HIGH level
  = Some (Z.quot (pulse_frequency cfg * level) (led_max_level cfg))
  /\ required_delay cfg LOW level
     = Some (pulse_frequency cfg
             - Z.quot (pulse_frequency cfg * level) (led_max_level cfg)).
Proof.
  intros Hl Hp Hpl.
  unfold required_delay, high_share, int_mul.
  rewrite (to_int_in_range _ Hpl).
  rewrite int_div_defined by lia.
  split; [reflexivity|].
  cbn [LOW Z.eqb]. unfold int_sub.
  rewrite to_int_in_range; [reflexivity|].
  destruct (quot_share_bounds (pulse_frequency cfg) level (led_max_level cfg) Hl)
    as [Hpos Hneg].
  unfold INT_MIN, INT_MAX in *.
  destruct (Z.le_ge_cases 0 (pulse_frequency cfg)) as [H0|H0].
  - specialize (Hpos H0). lia.
  - specialize (Hneg H0). lia.
Qed.

(** C7. When [Period * level] does not fit in [int] the dwells are not
    the claimed quotients: at Period 2000000000, MaxLevel 3 and level 2
    the product wraps to -294967296, the HIGH dwell computed is -98322432
    and the LOW dwell 2098322432, while [Period * level / MaxLevel] is
    1333333333. *)
Theorem required_delay_wraps_for_long_period :
  let cfg := mk_config 2000000000 3 183 184 in
  required_delay cfg HIGH 2 = Some (-98322432)
  /\ required_delay cfg LOW 2 = Some 2098322432
  /\ Z.quot (pulse_frequency cfg * 2) (led_max_level cfg) = 1333333333
  /\ ~ (required_delay cfg HIGH 2
        = Some (Z.quot (pulse_frequency cfg * 2) (led_max_level cfg))
        /\ required_delay cfg LOW 2
           = Some (pulse_frequency cfg
                   - Z.quot (pulse_frequency cfg * 2) (led_max_level cfg))).
Proof.
  cbv zeta. split; [reflexivity|]. split; [reflexivity|].
  split; [reflexivity|].
  intros [H _]. vm_compute in H. discriminate H.
Qed.

(** The dwells are computed on [int] with division truncating toward
    zero: for a level strictly between 0 and the
    maximum level and a product [Period * level] that fits in [int], the
    dwell computed for a HIGH line is the quotient of [Period * level] by
    [MaxLevel] truncated toward zero, and the dwell computed for a LOW line
    is [Period] minus that quotient. At MaxLevel 5, level 2 and Period
    100000 these are 40000 and 60000 (the witness below). *)
Theorem required_delay_truncating_division (cfg : config) (level : Z) :
  0 < level < led_max_level cfg ->
  INT_MIN <= pulse_frequency cfg <= INT_MAX ->
  INT_MIN <= pulse_frequency cfg * level <= INT_MAX ->
  required_delay cfg HIGH level
  = Some (Z.quot (pulse_frequency cfg * level) (led_max_level cfg))
  /\ required_delay cfg LOW level
     = Some (pulse_frequency cfg
             - Z.quot (pulse_frequency cfg * level) (led_max_level cfg)).
Proof.
  intros Hl Hp Hpl.
  unfold required_delay, high_share, int_mul.
  rewrite (to_int_in_range _ Hpl).
  rewrite int_div_defined by lia.
  split; [reflexivity|].
  cbn [LOW Z.eqb]. unfold int_sub.
  rewrite to_int_in_range; [reflexivity|].
  destruct (quot_share_bounds (pulse_frequency cfg) level (led_max_level cfg) Hl)
    as [Hpos Hneg].
  unfold INT_MIN, INT_MAX in *.
  destruct (Z.le_ge_cases 0 (pulse_frequency cfg)) as [H0|H0].
  - specialize (Hpos H0). lia.
  - specialize (Hneg H0). lia.
Qed.

Lemma required_delay_truncating_division_witness :
  (0 < 2 < led_max_level default_config
   /\ INT_MIN <= pulse_frequency default_config <= INT_MAX
   /\ INT_MIN <= pulse_frequency default_config * 2 <= INT_MAX)
  /\ led_max_level default_config = 5
  /\ pulse_frequency default_config = 100000
  /\ required_delay default_config HIGH 2 = Some 40000
  /\ required_delay default_config LOW 2 = Some 60000.
Proof.
  assert (H1 : 0 < 2 < led_max_level default_config)
    by (vm_compute; split; reflexivity).
  assert (H2 : INT_MIN <= pulse_frequency default_config <= INT_MAX)
    by (vm_compute; split; discriminate).
  assert (H3 : INT_MIN <= pulse_frequency default_config * 2 <= INT_MAX)
    by (vm_compute; split; discriminate).
  split; [exact (conj H1 (conj H2 H3))|].
  split; [reflexivity|]. split; [reflexivity|].
  exact (required_delay_truncating_division default_config 2 H1 H2 H3).
Defined.

(** C8, as stated, fails when the maximum level is 0: the level 0 is then
    also the maximum level, and the line is driven LOW, not HIGH. *)
Lemma boundary_high_fails_at_zero_max_level :
  let s' := final_state (led_ctrl_func zero_max_config t0 boot) in
  ~ ((led_level boot = 0 -> led_gpio_line s' = false)
     /\ (led_level boot = led_max_level zero_max_config ->
         led_gpio_line s' = true)).
Proof.
  cbv zeta. intros [_ H].
  assert (E : led_gpio_line (final_state (led_ctrl_func zero_max_config t0 boot))
              = true) by (apply H; reflexivity).
  vm_compute in E. discriminate E.
Qed.

(** C8 (amended). In every iteration of [led_ctrl_func]: if the level is 0
    the line is driven LOW; if the level is the maximum level and is not 0
    the line is driven HIGH; in both cases the iteration returns without
    computing a dwell, changes nothing else (the time stamp of the last
    transition included) and queues itself again. *)
Theorem led_ctrl_func_boundary_levels
    (cfg : config) (now : timespec64) (s : state) :
  (led_level s = 0 ->
   led_ctrl_func cfg now s
   = Returned (schedule_led_switch_work (with_led_gpio_line false s)) tt)
  /\ (led_level s = led_max_level cfg -> led_level s <> 0 ->
      led_ctrl_func cfg now s
      = Returned (schedule_led_switch_work (with_led_gpio_line true s)) tt)
  /\ (led_level s = 0 \/ led_level s = led_max_level cfg ->
      prev_led_switch (final_state (led_ctrl_func cfg now s))
      = prev_led_switch s
      /\ led_switch_work (final_state (led_ctrl_func cfg now s)) = true
      /\ returns (led_ctrl_func cfg now s) = true).
Proof.
  assert (A : led_level s = 0 ->
              led_ctrl_func cfg now s
              = Returned (schedule_led_switch_work (with_led_gpio_line false s)) tt).
  { intros H0. unfold led_ctrl_func, LED_MIN_LEVEL. rewrite H0.
    reflexivity. }
  assert (B : led_level s = led_max_level cfg -> led_level s <> 0 ->
              led_ctrl_func cfg now s
              = Returned (schedule_led_switch_work (with_led_gpio_line true s)) tt).
  { intros Hm H0. unfold led_ctrl_func, LED_MIN_LEVEL.
    destruct (Z.eqb_spec (led_level s) 0) as [E|_]; [contradiction|].
    rewrite Hm at 1. rewrite Z.eqb_refl. reflexivity. }
  split; [exact A|]. split; [exact B|].
  intros Hb.
  destruct (Z.eq_dec (led_level s) 0) as [H0|H0].
  - rewrite (A H0). repeat split.
  - destruct Hb as [Hb|Hb]; [contradiction|].
    rewrite (B Hb H0). repeat split.
Qed.

Lemma led_ctrl_func_boundary_levels_witness :
  let s := process_events default_config boot [UP; UP; UP; UP; UP] in
  (led_level s = led_max_level default_config /\ led_level s <> 0)
  /\ led_ctrl_func default_config t0 s
     = Returned (schedule_led_switch_work (with_led_gpio_line true s)) tt.
Proof.
  cbv zeta.
  assert (H1 : led_level (process_events default_config boot [UP; UP; UP; UP; UP])
               = led_max_level default_config) by reflexivity.
  assert (H2 : led_level (process_events default_config boot [UP; UP; UP; UP; UP])
               <> 0) by (vm_compute; discriminate).
  split; [exact (conj H1 H2)|].
  exact (proj1 (proj2 (led_ctrl_func_boundary_levels default_config t0
                         (process_events default_config boot [UP; UP; UP; UP; UP])))
               H1 H2).
Defined.

(** C4. Two iterations at a level strictly between 0 and the maximum
    level in which the time since the last transition has reached the
    required dwell and yet the line is not flipped and the time stamp is
    not updated. First: period 2 s, level 1 of 2, line HIGH, exactly one
    second (the HIGH dwell) after the last transition; the elapsed time
    is computed with [USEC_PER_SEC] as 1000000. Second: the default
    configuration, level 2 of 5, line LOW, 2148 s after the last
    transition; the elapsed time, cut to [int], is negative. *)
Theorem led_ctrl_func_misses_elapsed_dwell :
  (timespec64_to_ns (mk_ts 1001 0) - timespec64_to_ns (prev_led_switch slow_lit)
   = 1000000000
   /\ 0 < led_level slow_lit < led_max_level slow_config
   /\ gpio_get_value slow_lit = HIGH
   /\ required_delay slow_config HIGH (led_level slow_lit) = Some 1000000000
   /\ nanos_since (timespec64_sub (mk_ts 1001 0) (prev_led_switch slow_lit))
      = 1000000
   /\ led_ctrl_func slow_config (mk_ts 1001 0) slow_lit
      = Returned (schedule_led_switch_work slow_lit) tt)
  /\ (timespec64_to_ns (mk_ts 3148 0) - timespec64_to_ns (prev_led_switch dimmed)
      = 2148000000000
      /\ 0 < led_level dimmed < led_max_level default_config
      /\ gpio_get_value dimmed = LOW
      /\ required_delay default_config LOW (led_level dimmed) = Some 60000
      /\ nanos_since (timespec64_sub (mk_ts 3148 0) (prev_led_switch dimmed))
         = -2146967296
      /\ led_ctrl_func default_config (mk_ts 3148 0) dimmed
         = Returned (schedule_led_switch_work dimmed) tt).
Proof.
  split; repeat split; vm_compute; reflexivity.
Qed.

(** While between 0 and one second have passed since the last transition
    (the clock was not set back), an iteration at a level strictly between
    0 and the maximum level flips the line and records the current time
    iff the elapsed nanoseconds have reached the dwell of the current line
    value, and otherwise changes neither; either way it returns and has
    queued itself again. *)
Theorem led_ctrl_func_flips_iff_dwell_elapsed_within_one_second
    (cfg : config) (now : timespec64) (s : state) :
  timespec64_valid_strict now ->
  timespec64_valid_strict (prev_led_switch s) ->
  0 <= timespec64_to_ns now - timespec64_to_ns (prev_led_switch s)
    < NSEC_PER_SEC ->
  0 < led_level s < led_max_level cfg ->
  INT_MIN <= pulse_frequency cfg <= INT_MAX ->
  INT_MIN <= pulse_frequency cfg * led_level s <= INT_MAX ->
  let elapsed :=
    timespec64_to_ns now - timespec64_to_ns (prev_led_switch s) in
  let share :=
    Z.quot (pulse_frequency cfg * led_level s) (led_max_level cfg) in
  let dwell :=
    if led_gpio_line s then share else pulse_frequency cfg - share in
  led_ctrl_func cfg now s
  = Returned
      (schedule_led_switch_work
         (if dwell <=? elapsed
          then with_prev_led_switch now
                 (with_led_gpio_line (negb (led_gpio_line s)) s)
          else s))
      tt
  /\ returns (led_ctrl_func cfg now s) = true
  /\ led_switch_work (final_state (led_ctrl_func cfg now s)) = true
  /\ (dwell <= elapsed ->
      led_gpio_line (final_state (led_ctrl_func cfg now s))
      = negb (led_gpio_line s)
      /\ prev_led_switch (final_state (led_ctrl_func cfg now s)) = now)
  /\ (elapsed < dwell ->
      led_gpio_line (final_state (led_ctrl_func cfg now s)) = led_gpio_line s
      /\ prev_led_switch (final_state (led_ctrl_func cfg now s))
         = prev_led_switch s).
Proof.
  intros Hnow Hprev Hel Hl Hp Hpl elapsed share dwell.
  assert (E : led_ctrl_func cfg now s
              = Returned
                  (schedule_led_switch_work
                     (if dwell <=? elapsed
                      then with_prev_led_switch now
                             (with_led_gpio_line (negb (led_gpio_line s)) s)
                      else s))
                  tt).
  {
    destruct (timespec64_sub_valid now (prev_led_switch s) Hnow Hprev)
      as (Hsum & Hns & Hsec).
    fold elapsed in Hsum, Hel.
    unfold NSEC_PER_SEC, KTIME_SEC_MAX in *.
    assert (Hs0 : tv_sec (timespec64_sub now (prev_led_switch s)) = 0) by nia.
    assert (Hn : nanos_since (timespec64_sub now (prev_led_switch s)) = elapsed).
    { unfold nanos_since. rewrite Hs0. cbn [Z.mul].
      rewrite (to_s64_in_range 0) by lia.
      rewrite to_s64_in_range by lia.
      rewrite to_int_in_range by (unfold INT_MIN, INT_MAX; lia). lia. }
    destruct (required_delay_in_range cfg (led_level s) Hl Hp Hpl) as [Hhi Hlo].
    unfold led_ctrl_func. rewrite Hn. unfold LED_MIN_LEVEL.
    destruct (Z.eqb_spec (led_level s) 0) as [E|_]; [lia|].
    destruct (Z.eqb_spec (led_level s) (led_max_level cfg)) as [E|_]; [lia|].
    cbn [orb]. unfold gpio_get_value, dwell.
    destruct (led_gpio_line s) eqn:Hline.
    - rewrite Hhi. fold share. rewrite Z.geb_leb.
      destruct (share <=? elapsed); reflexivity.
    - rewrite Hlo. fold share. rewrite Z.geb_leb.
      destruct (pulse_frequency cfg - share <=? elapsed); reflexivity.
  }
  split; [exact E|].
  rewrite E. cbn [returns final_state].
  split; [reflexivity|]. split; [reflexivity|]. split.
  - intros H. rewrite (proj2 (Z.leb_le _ _) H). split; reflexivity.
  - intros H. rewrite (proj2 (Z.leb_gt _ _) H). split; reflexivity.
Qed.

Lemma led_ctrl_func_flips_iff_dwell_elapsed_within_one_second_witness :
  (timespec64_valid_strict (mk_ts 1000 60000)
   /\ timespec64_valid_strict (prev_led_switch dimmed)
   /\ 0 <= timespec64_to_ns (mk_ts 1000 60000)
           - timespec64_to_ns (prev_led_switch dimmed) < NSEC_PER_SEC
   /\ 0 < led_level dimmed < led_max_level default_config
   /\ INT_MIN <= pulse_frequency default_config <= INT_MAX
   /\ INT_MIN <= pulse_frequency default_config * led_level dimmed <= INT_MAX)
  /\ led_gpio_line
       (final_state (led_ctrl_func default_config (mk_ts 1000 60000) dimmed))
     = true
  /\ prev_led_switch
       (final_state (led_ctrl_func default_config (mk_ts 1000 60000) dimmed))
     = mk_ts 1000 60000.
Proof.
  assert (H1 : timespec64_valid_strict (mk_ts 1000 60000))
    by (vm_compute; repeat split; discriminate).
  assert (H2 : timespec64_valid_strict (prev_led_switch dimmed))
    by (vm_compute; repeat split; discriminate).
  assert (H3 : 0 <= timespec64_to_ns (mk_ts 1000 60000)
                    - timespec64_to_ns (prev_led_switch dimmed) < NSEC_PER_SEC)
    by (vm_compute; split; [discriminate | reflexivity]).
  assert (H4 : 0 < led_level dimmed < led_max_level default_config)
    by (vm_compute; split; reflexivity).
  assert (H5 : INT_MIN <= pulse_frequency default_config <= INT_MAX)
    by (vm_compute; split; discriminate).
  assert (H6 : INT_MIN <= pulse_frequency default_config * led_level dimmed
               <= INT_MAX)
    by (vm_compute; split; discriminate).
  split; [exact (conj H1 (conj H2 (conj H3 (conj H4 (conj H5 H6)))))|].
  assert (H7 : (if led_gpio_line dimmed
                then Z.quot (pulse_frequency default_config * led_level dimmed)
                            (led_max_level default_config)
                else pulse_frequency default_config
                     - Z.quot (pulse_frequency default_config * led_level dimmed)
                              (led_max_level default_config))
               <= timespec64_to_ns (mk_ts 1000 60000)
                  - timespec64_to_ns (prev_led_switch dimmed))
    by (vm_compute; discriminate).
  exact (proj1 (proj2 (proj2 (proj2
           (led_ctrl_func_flips_iff_dwell_elapsed_within_one_second
              default_config (mk_ts 1000 60000) dimmed H1 H2 H3 H4 H5 H6))))
           H7).
Defined.

End PwmEngine.

(** ** The debounce filter *)

Section Debounce.
Import CInt Time64 Led Sample.

(** The handler's arithmetic on an interval of [sec] seconds and [nsec]
    nanoseconds, in a [long] of [w] bits wide enough for the milliseconds. *)
Lemma millis_arith (w sec nsec e : Z) :
  0 < w ->
  - 2 ^ (w - 1) <= sec * MSEC_PER_SEC ->
  sec * MSEC_PER_SEC + 999 < 2 ^ (w - 1) ->
  sec * NSEC_PER_SEC + nsec = e ->
  0 <= nsec < NSEC_PER_SEC ->
  (wrap w (wrap w (wrap w sec * MSEC_PER_SEC) + Z.quot nsec NSEC_PER_MSEC)
   <? BUTTON_DEBOUNCE)
  = negb (BUTTON_DEBOUNCE * NSEC_PER_MSEC <=? e).
Proof.
  unfold MSEC_PER_SEC, NSEC_PER_SEC, NSEC_PER_MSEC, BUTTON_DEBOUNCE.
  intros Hw Hlo Hhi Hsum Hns.
  assert (H0 : 0 < 2 ^ (w - 1)) by (apply Z.pow_pos_nonneg; lia).
  rewrite Z.quot_div_nonneg by lia.
  pose proof (Z.div_mod nsec 1000000 ltac:(lia)) as Hdm.
  pose proof (Z.mod_pos_bound nsec 1000000 ltac:(lia)) as Hmb.
  assert (Hq : 0 <= nsec / 1000000 < 1000) by nia.
  rewrite (wrap_in_range w sec) by lia.
  rewrite (wrap_in_range w (sec * 1000)) by lia.
  rewrite wrap_in_range by lia.
  destruct (Z.ltb_spec (sec * 1000 + nsec / 1000000) 200);
    destruct (Z.leb_spec (200 * 1000000) e); cbn [negb];
    try reflexivity; lia.
Qed.

(** On an LP64 kernel the millisecond count of the difference of two
    clock readings is below the window iff the difference in nanoseconds
    is below 200 ms. *)
Lemma millis_below_window (a b : timespec64) :
  timespec64_valid_strict a -> timespec64_valid_strict b ->
  (millis_since LP64 (timespec64_sub a b) <? BUTTON_DEBOUNCE)
  = negb (BUTTON_DEBOUNCE * NSEC_PER_MSEC
          <=? timespec64_to_ns a - timespec64_to_ns b).
Proof.
  intros Ha Hb.
  destruct (timespec64_sub_valid a b Ha Hb) as (Hsum & Hns & Hsec).
  unfold millis_since.
  apply millis_arith; try assumption.
  - reflexivity.
  - unfold KTIME_SEC_MAX, MSEC_PER_SEC, LP64 in *.
    change (2 ^ (64 - 1)) with 9223372036854775808. lia.
  - unfold KTIME_SEC_MAX, MSEC_PER_SEC, LP64 in *.
    change (2 ^ (64 - 1)) with 9223372036854775808. lia.
Qed.

(** With a 32-bit [long] and clock readings less than 2147483 s apart
    the millisecond count does not wrap either. *)
Lemma millis_below_window_fit (lb : Z) (a b : timespec64) :
  timespec64_valid_strict a -> timespec64_valid_strict b ->
  Work.millis_fit lb a b ->
  (millis_since lb (timespec64_sub a b) <? BUTTON_DEBOUNCE)
  = negb (BUTTON_DEBOUNCE * NSEC_PER_MSEC
          <=? timespec64_to_ns a - timespec64_to_ns b).
Proof.
  intros Ha Hb [E64|[E32 Hgap]].
  - subst lb. apply millis_below_window; assumption.
  - subst lb.
    destruct (timespec64_sub_valid a b Ha Hb) as (Hsum & Hns & Hsec).
    unfold millis_since.
    apply millis_arith; try assumption.
    + reflexivity.
    + rewrite <- Hsum in Hgap.
      unfold NSEC_PER_SEC, MSEC_PER_SEC, ILP32 in *.
      change (2 ^ (32 - 1)) with 2147483648. lia.
    + rewrite <- Hsum in Hgap.
      unfold NSEC_PER_SEC, MSEC_PER_SEC, ILP32 in *.
      change (2 ^ (32 - 1)) with 2147483648. lia.
Qed.

(** C5. Where [long] has 32 bits, an edge on the down line 30 days
    (2592000 s) after that line's clock is far more than 200 ms late and
    yet is dropped: [(long)interval.tv_sec * MSEC_PER_SEC] wraps, the
    millisecond count is -1702967296, and the handler returns with the
    state unchanged (clock not updated, no event stored, nothing queued).
    The same edge is accepted where [long] has 64 bits. *)
Theorem debounce_drops_edge_after_thirty_days_on_ilp32 :
  let now := mk_ts 2593000 0 in
  let irq := down_button_irq default_config in
  BUTTON_DEBOUNCE * NSEC_PER_MSEC
  <= timespec64_to_ns now - timespec64_to_ns (prev_down_button_irq boot)
  /\ timespec64_to_ns now - timespec64_to_ns (prev_down_button_irq boot)
     = 2592000 * NSEC_PER_SEC
  /\ millis_since ILP32 (timespec64_sub now (prev_down_button_irq boot))
     = -1702967296
  /\ button_irq_handler ILP32 default_config irq now boot
     = (IRQ_HANDLED, boot)
  /\ led_level_work boot = false
  /\ prev_down_button_irq
       (snd (button_irq_handler LP64 default_config irq now boot)) = now
  /\ led_event (snd (button_irq_handler LP64 default_config irq now boot))
     = DOWN
  /\ led_level_work
       (snd (button_irq_handler LP64 default_config irq now boot)) = true.
Proof.
  cbv zeta. split; [vm_compute; discriminate|].
  repeat split; vm_compute; reflexivity.
Qed.

(** The debounce filter where its millisecond count cannot wrap. For
    clock readings the kernel accepts as valid, two buttons on different
    interrupts, and a millisecond count that cannot
    wrap (a 64-bit [long], or a 32-bit [long] and an edge less than
    2147483 s away from the line's clock): an edge on a button line at
    time [now] is accepted iff [now] minus that line's clock is at least
    200 ms in nanoseconds, the boundary included. When accepted, the
    line's clock becomes [now], the pending event becomes [DOWN] for the
    down line and [UP] for the up line, the brightness work is queued and
    nothing else changes; when rejected, the state is left as it was,
    with nothing queued by this edge. The handler returns [IRQ_HANDLED]
    either way. *)
Theorem debounce_accepts_iff_window_elapsed
    (lb : Z) (cfg : config) (now : timespec64) (s : state) :
  timespec64_valid_strict now ->
  timespec64_valid_strict (prev_down_button_irq s) ->
  timespec64_valid_strict (prev_up_button_irq s) ->
  down_button_irq cfg <> up_button_irq cfg ->
  Work.millis_fit lb now (prev_down_button_irq s) ->
  Work.millis_fit lb now (prev_up_button_irq s) ->
  let window := BUTTON_DEBOUNCE * NSEC_PER_MSEC in
  let since_down :=
    timespec64_to_ns now - timespec64_to_ns (prev_down_button_irq s) in
  let since_up :=
    timespec64_to_ns now - timespec64_to_ns (prev_up_button_irq s) in
  let down := button_irq_handler lb cfg (down_button_irq cfg) now s in
  let up := button_irq_handler lb cfg (up_button_irq cfg) now s in
  (fst down = IRQ_HANDLED /\ fst up = IRQ_HANDLED)
  /\ (window <= since_down ->
      prev_down_button_irq (snd down) = now
      /\ led_event (snd down) = DOWN
      /\ led_level_work (snd down) = true
      /\ prev_up_button_irq (snd down) = prev_up_button_irq s
      /\ prev_led_switch (snd down) = prev_led_switch s
      /\ led_level (snd down) = led_level s
      /\ led_state (snd down) = led_state s
      /\ led_gpio_line (snd down) = led_gpio_line s
      /\ led_switch_work (snd down) = led_switch_work s)
  /\ (since_down < window -> snd down = s)
  /\ (window <= since_up ->
      prev_up_button_irq (snd up) = now
      /\ led_event (snd up) = UP
      /\ led_level_work (snd up) = true
      /\ prev_down_button_irq (snd up) = prev_down_button_irq s
      /\ prev_led_switch (snd up) = prev_led_switch s
      /\ led_level (snd up) = led_level s
      /\ led_state (snd up) = led_state s
      /\ led_gpio_line (snd up) = led_gpio_line s
      /\ led_switch_work (snd up) = led_switch_work s)
  /\ (since_up < window -> snd up = s).
Proof.
  intros Hnow Hdown Hup Hirq Fd Fu window since_down since_up down up.
  assert (Ed : down
               = (IRQ_HANDLED,
                  if window <=? since_down
                  then schedule_led_level_work
                         (with_led_event DOWN (with_prev_down_button_irq now s))
                  else s)).
  { subst down. unfold button_irq_handler. rewrite Z.eqb_refl.
    rewrite (millis_below_window_fit lb now (prev_down_button_irq s)
               Hnow Hdown Fd).
    fold window since_down. destruct (window <=? since_down); reflexivity. }
  assert (Eu : up
               = (IRQ_HANDLED,
                  if window <=? since_up
                  then schedule_led_level_work
                         (with_led_event UP (with_prev_up_button_irq now s))
                  else s)).
  { subst up. unfold button_irq_handler.
    destruct (Z.eqb_spec (up_button_irq cfg) (down_button_irq cfg)) as [E|_];
      [congruence|].
    rewrite Z.eqb_refl.
    rewrite (millis_below_window_fit lb now (prev_up_button_irq s)
               Hnow Hup Fu).
    fold window since_up. destruct (window <=? since_up); reflexivity. }
  rewrite Ed, Eu. cbn [fst snd].
  split; [split; reflexivity|].
  split; [|split; [|split]].
  - intros H. rewrite (proj2 (Z.leb_le _ _) H). repeat split.
  - intros H. rewrite (proj2 (Z.leb_gt _ _) H). reflexivity.
  - intros H. rewrite (proj2 (Z.leb_le _ _) H). repeat split.
  - intros H. rewrite (proj2 (Z.leb_gt _ _) H). reflexivity.
Qed.

(** At the boundary, with a 32-bit [long]: an edge on the up line exactly
    200 ms after the clock of that line is accepted. *)
Lemma debounce_accepts_iff_window_elapsed_witness :
  let now := mk_ts 1000 200000000 in
  let up :=
    button_irq_handler ILP32 default_config (up_button_irq default_config)
      now boot in
  (timespec64_valid_strict now
   /\ timespec64_valid_strict (prev_down_button_irq boot)
   /\ timespec64_valid_strict (prev_up_button_irq boot)
   /\ down_button_irq default_config <> up_button_irq default_config
   /\ Work.millis_fit ILP32 now (prev_down_button_irq boot)
   /\ Work.millis_fit ILP32 now (prev_up_button_irq boot)
   /\ BUTTON_DEBOUNCE * NSEC_PER_MSEC
      <= timespec64_to_ns now - timespec64_to_ns (prev_up_button_irq boot))
  /\ prev_up_button_irq (snd up) = now
  /\ led_event (snd up) = UP
  /\ led_level_work (snd up) = true.
Proof.
  cbv zeta.
  assert (H1 : timespec64_valid_strict (mk_ts 1000 200000000))
    by (vm_compute; repeat split; discriminate).
  assert (H2 : timespec64_valid_strict (prev_down_button_irq boot))
    by (vm_compute; repeat split; discriminate).
  assert (H3 : timespec64_valid_strict (prev_up_button_irq boot))
    by (vm_compute; repeat split; discriminate).
  assert (H4 : down_button_irq default_config <> up_button_irq default_config)
    by (vm_compute; discriminate).
  assert (H5 : Work.millis_fit ILP32 (mk_ts 1000 200000000)
                 (prev_down_button_irq boot)).
  { right. split; [reflexivity|].
    vm_compute. split; [discriminate | reflexivity]. }
  assert (H6 : Work.millis_fit ILP32 (mk_ts 1000 200000000)
                 (prev_up_button_irq boot)).
  { right. split; [reflexivity|].
    vm_compute. split; [discriminate | reflexivity]. }
  assert (H7 : BUTTON_DEBOUNCE * NSEC_PER_MSEC
               <= timespec64_to_ns (mk_ts 1000 200000000)
                  - timespec64_to_ns (prev_up_button_irq boot))
    by (vm_compute; discriminate).
  split;
    [exact (conj H1 (conj H2 (conj H3 (conj H4 (conj H5 (conj H6 H7))))))|].
  destruct (proj1 (proj2 (proj2 (proj2
              (debounce_accepts_iff_window_elapsed
                 ILP32 default_config (mk_ts 1000 200000000) boot
                 H1 H2 H3 H4 H5 H6)))) H7) as (A & B & C & _).
  exact (conj A (conj B C)).
Defined.

(** C10. The handler returns [IRQ_HANDLED] whatever the interrupt number,
    the time and the state. Called with a number that is neither the down
    nor the up button's, it changes neither debounce clock nor the pending
    event and only queues the brightness work, so the worker then runs
    [led_level_func] on the state as it was, with the event that was
    pending. *)
Theorem button_irq_handler_always_handled
    (lb : Z) (cfg : config) (irq : Z) (now : timespec64) (s : state) :
  fst (button_irq_handler lb cfg irq now s) = IRQ_HANDLED
  /\ (irq <> down_button_irq cfg -> irq <> up_button_irq cfg ->
      let s' := snd (button_irq_handler lb cfg irq now s) in
      s' = schedule_led_level_work s
      /\ prev_down_button_irq s' = prev_down_button_irq s
      /\ prev_up_button_irq s' = prev_up_button_irq s
      /\ led_event s' = led_event s
      /\ led_level_work s' = true
      /\ run_led_level_work cfg s'
         = Some (led_level_func cfg (with_led_level_work false s))
      /\ led_event (with_led_level_work false s) = led_event s).
Proof.
  split.
  - unfold button_irq_handler.
    destruct (irq =? down_button_irq cfg);
      [|destruct (irq =? up_button_irq cfg)];
      try destruct (_ <? _); reflexivity.
  - intros Hd Hu s'.
    assert (E : s' = schedule_led_level_work s).
    { subst s'. unfold button_irq_handler.
      destruct (Z.eqb_spec irq (down_button_irq cfg)) as [Ed|_];
        [contradiction|].
      destruct (Z.eqb_spec irq (up_button_irq cfg)) as [Eu|_];
        [contradiction|].
      reflexivity. }
    rewrite E. repeat split.
Qed.

Lemma button_irq_handler_always_handled_witness :
  (17 <> down_button_irq default_config /\ 17 <> up_button_irq default_config)
  /\ snd (button_irq_handler LP64 default_config 17 t0 dimmed)
     = schedule_led_level_work dimmed.
Proof.
  assert (H1 : 17 <> down_button_irq default_config)
    by (vm_compute; discriminate).
  assert (H2 : 17 <> up_button_irq default_config)
    by (vm_compute; discriminate).
  split; [exact (conj H1 H2)|].
  exact (proj1 (proj2 (button_irq_handler_always_handled
                         LP64 default_config 17 t0 dimmed) H1 H2)).
Defined.

(** On an ILP32 kernel the seconds of the interval, multiplied by 1000 in
    a 32-bit [long], wrap: an edge on the up line 2147484 s after the
    clock of that line gives a negative millisecond count and is dropped. *)
Theorem debounce_drops_late_edge_on_ilp32 :
  timespec64_to_ns (mk_ts 2148484 0) - timespec64_to_ns (prev_up_button_irq boot)
  = 2147484 * NSEC_PER_SEC
  /\ millis_since ILP32
       (timespec64_sub (mk_ts 2148484 0) (prev_up_button_irq boot))
     = -2147483296
  /\ button_irq_handler ILP32 default_config (up_button_irq default_config)
       (mk_ts 2148484 0) boot
     = (IRQ_HANDLED, boot).
Proof.
  repeat split; vm_compute; reflexivity.
Qed.

End Debounce.

(** ** Start-up and roll-back *)

Section StartupRollback.
Import Startup.

(** C9. Three start-ups from nothing held that fail while acquiring
    lines and return with lines still requested: the up button on a line
    that does not exist (line 23 stays requested), the LED on a line that
    does not exist (lines 23 and 24 stay requested), and both buttons on
    line 23 (the second request is busy; line 23 stays requested). Each
    returns its error code, and no interrupt was registered. *)
Theorem pwm_led_init_keeps_lines_after_gpio_failure :
  pwm_led_init plain_board (mk_lines 23 (-1) 18) nothing_held
  = (- EINVAL, mk_held [23] [])
  /\ pwm_led_init plain_board (mk_lines 23 24 600) nothing_held
     = (- EINVAL, mk_held [24; 23] [])
  /\ pwm_led_init plain_board (mk_lines 23 23 18) nothing_held
     = (- EBUSY, mk_held [23] []).
Proof.
  repeat split; vm_compute; reflexivity.
Qed.

Lemma remove_three_of_three (a b c : Z) :
  remove Z.eq_dec c (remove Z.eq_dec b (remove Z.eq_dec a [c; b; a])) = [].
Proof.
  destruct (remove Z.eq_dec c (remove Z.eq_dec b (remove Z.eq_dec a [c; b; a])))
    as [|y l] eqn:E; [reflexivity|].
  assert (Hin : In y (remove Z.eq_dec c
                        (remove Z.eq_dec b (remove Z.eq_dec a [c; b; a]))))
    by (rewrite E; left; reflexivity).
  apply in_remove in Hin. destruct Hin as [Hin Hc].
  apply in_remove in Hin. destruct Hin as [Hin Hb].
  apply in_remove in Hin. destruct Hin as [Hin Ha].
  cbn [In] in Hin. intuition congruence.
Qed.

Lemma setup_pwm_led_gpio_from (b : board) (g : Z) (d : direction) (h : held) :
  fst (setup_pwm_led_gpio b g d h) = 0 ->
  snd (setup_pwm_led_gpio b g d h) = mk_held (g :: held_gpios h) (held_irqs h).
Proof.
  unfold setup_pwm_led_gpio, gpio_request, EINVAL, EBUSY.
  destruct (gpio_is_valid b g); cbn [negb fst snd]; [|discriminate].
  destruct (mem g (held_gpios h)); cbn [fst snd]; [discriminate|].
  destruct (gpio_request_result b g <? 0) eqn:E; cbn [fst snd];
    rewrite ?E; cbn [fst snd]; intros H;
    [apply Z.ltb_lt in E; lia | reflexivity].
Qed.

Lemma setup_pwm_led_gpios_from_nothing (b : board) (p : lines) :
  fst (setup_pwm_led_gpios b p nothing_held) = 0 ->
  snd (setup_pwm_led_gpios b p nothing_held)
  = mk_held [led_gpio p; up_button_gpio p; down_button_gpio p] [].
Proof.
  unfold setup_pwm_led_gpios.
  pose proof (setup_pwm_led_gpio_from b (down_button_gpio p) INPUT nothing_held)
    as H1.
  destruct (setup_pwm_led_gpio b (down_button_gpio p) INPUT nothing_held)
    as [r1 h1].
  cbn [fst snd] in H1.
  destruct (Z.eqb_spec r1 0) as [E1|N1]; cbn [negb fst snd];
    [|intros; contradiction].
  specialize (H1 E1). subst h1.
  pose proof (setup_pwm_led_gpio_from b (up_button_gpio p) INPUT
                (mk_held (down_button_gpio p :: held_gpios nothing_held)
                         (held_irqs nothing_held))) as H2.
  destruct (setup_pwm_led_gpio b (up_button_gpio p) INPUT _) as [r2 h2].
  cbn [fst snd] in H2.
  destruct (Z.eqb_spec r2 0) as [E2|N2]; cbn [negb fst snd];
    [|intros; contradiction].
  specialize (H2 E2). subst h2.
  pose proof (setup_pwm_led_gpio_from b (led_gpio p) OUTPUT
                (mk_held (up_button_gpio p
                            :: down_button_gpio p :: held_gpios nothing_held)
                         (held_irqs nothing_held))) as H3.
  cbn [held_gpios held_irqs] in H3 |- *.
  destruct (setup_pwm_led_gpio b (led_gpio p) OUTPUT _) as [r3 h3].
  cbn [fst snd] in H3.
  destruct (Z.eqb_spec r3 0) as [E3|N3]; cbn [negb fst snd];
    [|intros; contradiction].
  intros _. exact (H3 E3).
Qed.

(** What [setup_pwm_led_irq] leaves registered when the board returns 0
    or a negative errno to [request_irq]: on failure nothing more than
    before, on success the interrupt it stored. *)
Lemma setup_pwm_led_irq_cases (b : board) (g : Z) (h : held) :
  (forall irq, request_irq_result b irq <= 0) ->
  let '(ret, irq, h') := setup_pwm_led_irq b g h in
  (ret <> 0 /\ h' = h)
  \/ (ret = 0 /\ h' = mk_held (held_gpios h) (irq :: held_irqs h)).
Proof.
  intros Hb. unfold setup_pwm_led_irq, request_irq, EBUSY.
  destruct (Z.ltb_spec (gpio_to_irq b g) 0) as [Hn|Hn].
  - left. split; [lia|reflexivity].
  - destruct (mem (gpio_to_irq b g) (held_irqs h)).
    + cbn. left. split; [lia|reflexivity].
    + specialize (Hb (gpio_to_irq b g)).
      destruct (Z.ltb_spec (request_irq_result b (gpio_to_irq b g)) 0)
        as [Hr|Hr]; cbn.
      * rewrite (proj2 (Z.ltb_lt _ _) Hr). left. split; [lia|reflexivity].
      * rewrite (proj2 (Z.ltb_ge _ _) Hr). right. split; [lia|reflexivity].
Qed.

(** The interrupt path, unlike the line path, rolls back: when the three
    lines were acquired from nothing held and registering an interrupt
    then fails (the board answering [request_irq] with 0 or a negative
    errno), [pwm_led_init] returns the error with nothing held. *)
Theorem pwm_led_init_releases_all_after_irq_failure (b : board) (p : lines) :
  (forall irq, request_irq_result b irq <= 0) ->
  fst (setup_pwm_led_gpios b p nothing_held) = 0 ->
  fst (pwm_led_init b p nothing_held) <> 0 ->
  snd (pwm_led_init b p nothing_held) = nothing_held.
Proof.
  intros Hb Hg. unfold pwm_led_init.
  pose proof (setup_pwm_led_gpios_from_nothing b p Hg) as Hh.
  destruct (setup_pwm_led_gpios b p nothing_held) as [r h1].
  cbn [fst snd] in Hg, Hh. subst r h1. cbn [Z.eqb negb].
  unfold setup_pwm_led_irqs.
  pose proof (setup_pwm_led_irq_cases b (down_button_gpio p)
                (mk_held [led_gpio p; up_button_gpio p; down_button_gpio p] [])
                Hb) as C1.
  destruct (setup_pwm_led_irq b (down_button_gpio p) _) as [[r1 i1] h1].
  destruct C1 as [[N1 E1]|[Z1 E1]]; subst h1.
  - destruct (Z.eqb_spec r1 0) as [E|_]; [contradiction|].
    cbn [negb fst snd]. rewrite (proj2 (Z.eqb_neq r1 0) N1). cbn [negb fst snd].
    intros _. unfold unset_pwm_led_gpios, gpio_free. cbn [held_gpios held_irqs].
    rewrite remove_three_of_three. reflexivity.
  - subst r1. cbn [Z.eqb negb held_gpios held_irqs].
    pose proof (setup_pwm_led_irq_cases b (up_button_gpio p)
                  (mk_held [led_gpio p; up_button_gpio p; down_button_gpio p]
                           [i1]) Hb) as C2.
    destruct (setup_pwm_led_irq b (up_button_gpio p) _) as [[r2 i2] h2].
    destruct C2 as [[N2 E2]|[Z2 E2]]; subst h2.
    + rewrite (proj2 (Z.eqb_neq r2 0) N2). cbn [negb fst snd].
      rewrite (proj2 (Z.eqb_neq r2 0) N2). cbn [negb fst snd].
      intros _. unfold unset_pwm_led_gpios, gpio_free, free_irq.
      cbn [held_gpios held_irqs].
      rewrite remove_three_of_three. cbn [remove].
      destruct (Z.eq_dec i1 i1) as [_|N]; [reflexivity|contradiction].
    + subst r2. cbn [Z.eqb negb fst snd]. intros N. contradiction.
Qed.

Lemma pwm_led_init_releases_all_after_irq_failure_witness :
  let b := mk_board (gpio_is_valid plain_board) (gpio_request_result plain_board)
                    (gpio_to_irq plain_board)
                    (fun irq => if irq =? 184 then - EBUSY else 0) in
  ((forall irq, request_irq_result b irq <= 0)
   /\ fst (setup_pwm_led_gpios b (mk_lines 23 24 18) nothing_held) = 0
   /\ fst (pwm_led_init b (mk_lines 23 24 18) nothing_held) <> 0)
  /\ pwm_led_init b (mk_lines 23 24 18) nothing_held = (- EBUSY, nothing_held).
Proof.
  cbv zeta.
  set (b := mk_board (gpio_is_valid plain_board)
                     (gpio_request_result plain_board)
                     (gpio_to_irq plain_board)
                     (fun irq => if irq =? 184 then - EBUSY else 0)).
  assert (H1 : forall irq, request_irq_result b irq <= 0).
  { intros irq. cbn. destruct (irq =? 184); vm_compute; discriminate. }
  assert (H2 : fst (setup_pwm_led_gpios b (mk_lines 23 24 18) nothing_held) = 0)
    by reflexivity.
  assert (H3 : fst (pwm_led_init b (mk_lines 23 24 18) nothing_held) <> 0)
    by (vm_compute; discriminate).
  split; [exact (conj H1 (conj H2 H3))|].
  pose proof (pwm_led_init_releases_all_after_irq_failure
                b (mk_lines 23 24 18) H1 H2 H3) as E.
  destruct (pwm_led_init b (mk_lines 23 24 18) nothing_held) as [r h] eqn:Ei.
  cbn [snd] in E. subst h.
  vm_compute in Ei. injection Ei as Er. subst r. reflexivity.
Defined.

End StartupRollback.

(** ** Who writes what *)

Section Frames.
Import CInt Time64 Led Sample Work.

(** The interrupt handler leaves the brightness and the PWM side alone:
    level, stored state, LED line, time stamp of the last transition and
    the PWM work are as before, whatever the interrupt number; a queued
    brightness work stays queued; the clock of the down line changes only
    on the down interrupt, and the clock of the up line only on an
    interrupt that is the up one and not the down one. *)
Theorem button_irq_handler_frame
    (lb : Z) (cfg : config) (irq : Z) (now : timespec64) (s : state) :
  let s' := snd (button_irq_handler lb cfg irq now s) in
  led_level s' = led_level s
  /\ led_state s' = led_state s
  /\ led_gpio_line s' = led_gpio_line s
  /\ prev_led_switch s' = prev_led_switch s
  /\ led_switch_work s' = led_switch_work s
  /\ (led_level_work s = true -> led_level_work s' = true)
  /\ (irq <> down_button_irq cfg ->
      prev_down_button_irq s' = prev_down_button_irq s)
  /\ (irq <> up_button_irq cfg \/ irq = down_button_irq cfg ->
      prev_up_button_irq s' = prev_up_button_irq s).
Proof.
  cbv zeta. unfold button_irq_handler.
  destruct (Z.eqb_spec irq (down_button_irq cfg)) as [Ed|Nd].
  - destruct (_ <? _); cbn; repeat split; auto; intros; contradiction.
  - destruct (Z.eqb_spec irq (up_button_irq cfg)) as [Eu|Nu].
    + destruct (_ <? _); cbn; repeat split; auto; intros [H|H]; contradiction.
    + cbn; repeat split; auto.
Qed.

Lemma button_irq_handler_frame_witness :
  up_button_irq default_config <> down_button_irq default_config
  /\ prev_down_button_irq
       (snd (button_irq_handler LP64 default_config
               (up_button_irq default_config) (mk_ts 2000 0) boot))
     = prev_down_button_irq boot.
Proof.
  assert (H : up_button_irq default_config <> down_button_irq default_config)
    by (vm_compute; discriminate).
  split; [exact H|].
  exact (proj1 (proj2 (proj2 (proj2 (proj2 (proj2 (proj2
           (button_irq_handler_frame LP64 default_config
              (up_button_irq default_config) (mk_ts 2000 0) boot))))))) H).
Defined.

(** A run of [led_level_func] writes the level and the stored state and
    nothing else: the three clocks, the LED line, the pending event and
    both queue flags are as before, whether the run returns or stops at
    its division. With no event pending the level is unchanged too, and a
    returning run reports the level it leaves. *)
Theorem led_level_func_frame (cfg : config) (s : state) :
  let s' := final_state (led_level_func cfg s) in
  prev_down_button_irq s' = prev_down_button_irq s
  /\ prev_up_button_irq s' = prev_up_button_irq s
  /\ prev_led_switch s' = prev_led_switch s
  /\ led_gpio_line s' = led_gpio_line s
  /\ led_event s' = led_event s
  /\ led_level_work s' = led_level_work s
  /\ led_switch_work s' = led_switch_work s
  /\ (led_event s = NONE -> led_level s' = led_level s)
  /\ (forall (r : state) (pct lvl : Z),
        led_level_func cfg s = Returned r (pct, lvl) -> lvl = led_level r).
Proof.
  cbv zeta. rewrite final_state_led_level_func.
  repeat split;
    try (destruct (fsm_functions (led_state s) (led_event s)); reflexivity).
  - intros E. rewrite E. destruct (led_state s); reflexivity.
  - unfold led_level_func. intros r pct lvl.
    destruct (int_div _ _); [|discriminate].
    intros H. injection H as Hr Hp Hl. subst r. symmetry. exact Hl.
Qed.

Lemma led_level_func_frame_witness :
  led_event dimmed = UP
  /\ led_event (with_led_event NONE dimmed) = NONE
  /\ led_level (final_state (led_level_func default_config
                               (with_led_event NONE dimmed)))
     = led_level (with_led_event NONE dimmed).
Proof.
  split; [reflexivity|].
  assert (H : led_event (with_led_event NONE dimmed) = NONE) by reflexivity.
  split; [exact H|].
  exact (proj1 (proj2 (proj2 (proj2 (proj2 (proj2 (proj2 (proj2
           (led_level_func_frame default_config
              (with_led_event NONE dimmed))))))))) H).
Defined.

(** An iteration of [led_ctrl_func] only reads the brightness: level,
    stored state, pending event, both debounce clocks and the brightness
    queue flag are as before. The time stamp of the last transition
    changes only together with a flip of the line, and then to [now]. An
    iteration that returns has queued itself again. *)
Theorem led_ctrl_func_frame (cfg : config) (now : timespec64) (s : state) :
  let s' := final_state (led_ctrl_func cfg now s) in
  led_level s' = led_level s
  /\ led_state s' = led_state s
  /\ led_event s' = led_event s
  /\ prev_down_button_irq s' = prev_down_button_irq s
  /\ prev_up_button_irq s' = prev_up_button_irq s
  /\ led_level_work s' = led_level_work s
  /\ (prev_led_switch s' = prev_led_switch s
      \/ (prev_led_switch s' = now
          /\ led_gpio_line s' = negb (led_gpio_line s)))
  /\ (returns (led_ctrl_func cfg now s) = true -> led_switch_work s' = true).
Proof.
  cbv zeta. unfold led_ctrl_func.
  destruct (_ || _).
  - cbn. repeat split; auto.
  - destruct (required_delay cfg (gpio_get_value s) (led_level s)) as [d|].
    + destruct (_ >=? d).
      * cbn. repeat split; auto. right. split; [reflexivity|].
        unfold gpio_get_value. destruct (led_gpio_line s); reflexivity.
      * cbn. repeat split; auto.
    + cbn. repeat split; auto. intros H; discriminate H.
Qed.

Lemma led_ctrl_func_frame_witness :
  returns (led_ctrl_func default_config (mk_ts 1000 60000) dimmed) = true
  /\ led_switch_work
       (final_state (led_ctrl_func default_config (mk_ts 1000 60000) dimmed))
     = true.
Proof.
  assert (H : returns (led_ctrl_func default_config (mk_ts 1000 60000) dimmed)
              = true) by reflexivity.
  split; [exact H|].
  exact (proj2 (proj2 (proj2 (proj2 (proj2 (proj2 (proj2
           (led_ctrl_func_frame default_config (mk_ts 1000 60000) dimmed)))))))
           H).
Defined.

End Frames.

(** ** The state machine as a counter *)

Section Counter.
Import CInt Time64 Led Sample Work.

Lemma with_own_led_event (s : state) : with_led_event (led_event s) s = s.
Proof. destruct s; reflexivity. Qed.

Lemma led_level_func_consistent (cfg : config) (s : state) :
  1 <= led_max_level cfg <= INT_MAX ->
  consistent cfg s -> consistent cfg (final_state (led_level_func cfg s)).
Proof.
  intros Hm Hc.
  pose proof (process_event_consistent cfg Hm s (led_event s) Hc) as H.
  unfold process_event in H. rewrite with_own_led_event in H. exact H.
Qed.

(** The report of a run. With a maximum level [M >= 1] such that
    [100 * M] fits in [int], a run from a state whose level is in range
    and whose stored state matches it returns, and reports the level it
    leaves together with [100 * level / M] rounded down: a percentage
    between 0 and 100 that is 100 exactly at level [M] and 0 at level 0. *)
Theorem led_level_func_reports_percentage (cfg : config) (s : state) :
  1 <= led_max_level cfg ->
  100 * led_max_level cfg <= INT_MAX ->
  consistent cfg s ->
  let s' := final_state (led_level_func cfg s) in
  let pct := 100 * led_level s' / led_max_level cfg in
  led_level_func cfg s = Returned s' (pct, led_level s')
  /\ 0 <= pct <= 100
  /\ (pct = 100 <-> led_level s' = led_max_level cfg)
  /\ (led_level s' = 0 -> pct = 0).
Proof.
  intros Hm Hfit Hc s' pct.
  assert (Hm' : 1 <= led_max_level cfg <= INT_MAX)
    by (unfold INT_MAX in *; lia).
  destruct (led_level_func_consistent cfg s Hm' Hc) as [Hr _].
  fold s' in Hr.
  assert (Hs' : s' = update_led_state cfg
                       (call (fsm_functions (led_state s) (led_event s)) s))
    by apply final_state_led_level_func.
  assert (Hq : 0 <= pct <= 100).
  { subst pct. split.
    - apply Z.div_pos; lia.
    - apply Z.div_le_upper_bound; nia. }
  split.
  - unfold led_level_func. rewrite <- Hs'.
    unfold int_mul. rewrite to_int_in_range
      by (unfold INT_MIN, INT_MAX in *; lia).
    rewrite int_div_defined by lia.
    rewrite Z.quot_div_nonneg by lia. reflexivity.
  - split; [exact Hq|]. split.
    + split.
      * intros E.
        pose proof (Z.mul_div_le (100 * led_level s') (led_max_level cfg)
                      ltac:(lia)) as Hle.
        fold pct in Hle. nia.
      * intros E. subst pct. rewrite E.
        apply Z.div_mul. lia.
    + intros E. subst pct. rewrite E. reflexivity.
Qed.

Lemma led_level_func_reports_percentage_witness :
  (1 <= led_max_level default_config
   /\ 100 * led_max_level default_config <= INT_MAX
   /\ consistent default_config (with_led_event UP dimmed))
  /\ led_level_func default_config (with_led_event UP dimmed)
     = Returned (final_state (led_level_func default_config
                                (with_led_event UP dimmed)))
                (60, 3).
Proof.
  assert (H1 : 1 <= led_max_level default_config)
    by (vm_compute; discriminate).
  assert (H2 : 100 * led_max_level default_config <= INT_MAX)
    by (vm_compute; discriminate).
  assert (H3 : consistent default_config (with_led_event UP dimmed)).
  { split; [vm_compute; split; discriminate | reflexivity]. }
  split; [exact (conj H1 (conj H2 H3))|].
  exact (proj1 (led_level_func_reports_percentage
                  default_config (with_led_event UP dimmed) H1 H2 H3)).
Defined.

Lemma process_events_clamped (cfg : config) (es : list event) (s : state) :
  1 <= led_max_level cfg <= INT_MAX ->
  consistent cfg s ->
  led_level (process_events cfg s es)
  = fold_left (clamped_step (led_max_level cfg)) es (led_level s).
Proof.
  intros Hm. revert s.
  induction es as [|e es IH]; intros s Hc; [reflexivity|].
  cbn [process_events fold_left].
  change (fold_left (process_event cfg) es (process_event cfg s e))
    with (process_events cfg (process_event cfg s e) es).
  rewrite (IH _ (process_event_consistent cfg Hm s e Hc)).
  rewrite (process_event_level cfg Hm s e Hc).
  destruct e; reflexivity.
Qed.

(** The table saturates like arithmetic clamping. With a maximum level of
    at least 1, the level after any sequence of events, from a state whose
    level is in range and whose stored state matches it, is the level a
    counter clamped to [0, MaxLevel] would have. *)
Theorem table_saturation_is_clamping
    (cfg : config) (es : list event) (s : state) :
  1 <= led_max_level cfg <= INT_MAX ->
  consistent cfg s ->
  led_level (process_events cfg s es)
  = fold_left (clamped_step (led_max_level cfg)) es (led_level s).
Proof.
  exact (process_events_clamped cfg es s).
Qed.

Lemma table_saturation_is_clamping_witness :
  (1 <= led_max_level default_config <= INT_MAX
   /\ consistent default_config boot)
  /\ led_level (process_events default_config boot
                               [UP; DOWN; DOWN; UP; UP; NONE])
     = 2.
Proof.
  assert (H1 : 1 <= led_max_level default_config <= INT_MAX)
    by (vm_compute; split; discriminate).
  assert (H2 : consistent default_config boot).
  { split; [vm_compute; split; discriminate | reflexivity]. }
  split; [exact (conj H1 H2)|].
  exact (table_saturation_is_clamping default_config
           [UP; DOWN; DOWN; UP; UP; NONE] boot H1 H2).
Defined.

(** Below the maximum an accepted [UP] followed by an accepted [DOWN]
    restores level and stored state, and above 0 so does [DOWN] followed
    by [UP]; at the maximum [UP] then [DOWN] loses one level, and at 0
    [DOWN] then [UP] gains one. *)
Theorem up_down_round_trip (cfg : config) (s : state) :
  1 <= led_max_level cfg <= INT_MAX ->
  consistent cfg s ->
  (led_level s < led_max_level cfg ->
   led_level (process_events cfg s [UP; DOWN]) = led_level s
   /\ led_state (process_events cfg s [UP; DOWN]) = led_state s)
  /\ (0 < led_level s ->
      led_level (process_events cfg s [DOWN; UP]) = led_level s
      /\ led_state (process_events cfg s [DOWN; UP]) = led_state s)
  /\ (led_level s = led_max_level cfg ->
      led_level (process_events cfg s [UP; DOWN]) = led_max_level cfg - 1)
  /\ (led_level s = 0 ->
      led_level (process_events cfg s [DOWN; UP]) = 1).
Proof.
  intros Hm Hc.
  assert (L : forall e1 e2,
             led_level (process_events cfg s [e1; e2])
             = clamped_step (led_max_level cfg)
                 (clamped_step (led_max_level cfg) (led_level s) e1) e2).
  { intros e1 e2.
    rewrite (process_events_clamped cfg [e1; e2] s Hm Hc).
    reflexivity. }
  assert (Q : forall e1 e2,
             led_state (process_events cfg s [e1; e2])
             = classify cfg (led_level (process_events cfg s [e1; e2]))).
  { intros e1 e2.
    apply (process_events_consistent cfg Hm [e1; e2] s Hc). }
  destruct Hc as [Hr Hq].
  split; [|split; [|split]].
  - intros Hlt. split.
    + rewrite L. cbn [clamped_step]. lia.
    + rewrite Q, L, Hq. cbn [clamped_step]. f_equal. lia.
  - intros Hgt. split.
    + rewrite L. cbn [clamped_step]. lia.
    + rewrite Q, L, Hq. cbn [clamped_step]. f_equal. lia.
  - intros He. rewrite L. cbn [clamped_step]. lia.
  - intros He. rewrite L. cbn [clamped_step]. lia.
Qed.

Lemma up_down_round_trip_witness :
  (1 <= led_max_level default_config <= INT_MAX
   /\ consistent default_config dimmed
   /\ led_level dimmed < led_max_level default_config)
  /\ led_level (process_events default_config dimmed [UP; DOWN])
     = led_level dimmed
  /\ led_state (process_events default_config dimmed [UP; DOWN])
     = led_state dimmed.
Proof.
  assert (H1 : 1 <= led_max_level default_config <= INT_MAX)
    by (vm_compute; split; discriminate).
  assert (H2 : consistent default_config dimmed).
  { split; [vm_compute; split; discriminate | reflexivity]. }
  assert (H3 : led_level dimmed < led_max_level default_config)
    by (vm_compute; reflexivity).
  split; [exact (conj H1 (conj H2 H3))|].
  exact (proj1 (up_down_round_trip default_config dimmed H1 H2) H3).
Defined.

End Counter.

(** ** Maximum level 0: a counter without a ceiling *)

Section NoCeiling.
Import CInt Time64 Led Sample Work.

Variable cfg : config.
Hypothesis max_level_zero : led_max_level cfg = 0.

Lemma classify_without_ceiling (l : Z) :
  classify cfg l = if l =? 0 then OFF else ON.
Proof.
  unfold classify, LED_MIN_LEVEL. rewrite max_level_zero.
  destruct (l =? 0); reflexivity.
Qed.

Lemma process_up_without_ceiling (s : state) :
  0 <= led_level s < INT_MAX ->
  led_state s = classify cfg (led_level s) ->
  led_level (process_event cfg s UP) = led_level s + 1
  /\ led_state (process_event cfg s UP)
     = classify cfg (led_level (process_event cfg s UP)).
Proof.
  intros Hr Hq. rewrite process_event_state. split; [|reflexivity].
  cbn [update_led_state with_led_state led_level].
  rewrite Hq, classify_without_ceiling.
  unfold INT_MAX in Hr.
  destruct (led_level s =? 0);
    cbn [fsm_functions call with_led_level with_led_event led_level];
    unfold atomic_inc;
    rewrite to_int_in_range by (unfold INT_MIN, INT_MAX; lia); reflexivity.
Qed.

Lemma process_ups_without_ceiling (n : nat) (s : state) :
  0 <= led_level s ->
  led_level s + Z.of_nat n <= INT_MAX ->
  led_state s = classify cfg (led_level s) ->
  led_level (process_events cfg s (repeat UP n)) = led_level s + Z.of_nat n.
Proof.
  revert s. induction n as [|n IH]; intros s H0 Hn Hq.
  - cbn [repeat process_events fold_left]. lia.
  - cbn [repeat process_events fold_left].
    change (fold_left (process_event cfg) (repeat UP n) (process_event cfg s UP))
      with (process_events cfg (process_event cfg s UP) (repeat UP n)).
    destruct (process_up_without_ceiling s ltac:(lia) Hq) as [Hl Hq'].
    rewrite IH; [lia | lia | lia | exact Hq'].
Qed.

End NoCeiling.

Section NoCeilingStated.
Import CInt Time64 Led Sample Work.

(** With maximum level 0 the table never suppresses an increment: [N]
    accepted [UP] events from the initial state leave level [N], for
    every [N] up to [INT_MAX]. *)
Theorem ups_unbounded_at_zero_max_level
    (cfg : config) (n : nat) (t1 t2 t3 : timespec64) :
  led_max_level cfg = 0 ->
  Z.of_nat n <= INT_MAX ->
  led_level (process_events cfg (initial_state t1 t2 t3) (repeat UP n))
  = Z.of_nat n.
Proof.
  intros Hm Hn.
  rewrite (process_ups_without_ceiling cfg Hm n (initial_state t1 t2 t3)).
  - cbn [initial_state led_level]. unfold LED_MIN_LEVEL. lia.
  - cbn [initial_state led_level]. unfold LED_MIN_LEVEL. lia.
  - cbn [initial_state led_level]. unfold LED_MIN_LEVEL. lia.
  - rewrite (classify_without_ceiling cfg Hm). reflexivity.
Qed.

Lemma ups_unbounded_at_zero_max_level_witness :
  (led_max_level zero_max_config = 0 /\ Z.of_nat 40 <= INT_MAX)
  /\ led_level (process_events zero_max_config (initial_state t0 t0 t0)
                               (repeat UP 40))
     = 40.
Proof.
  assert (H1 : led_max_level zero_max_config = 0) by reflexivity.
  assert (H2 : Z.of_nat 40 <= INT_MAX) by (vm_compute; discriminate).
  split; [exact (conj H1 H2)|].
  exact (ups_unbounded_at_zero_max_level zero_max_config 40 t0 t0 t0 H1 H2).
Defined.

End NoCeilingStated.

(** ** More on the PWM engine *)

Section PwmMore.
Import CInt Time64 Led Sample Work.

Lemma led_ctrl_func_at_zero (cfg : config) (now : timespec64) (s : state) :
  led_level s = 0 ->
  led_ctrl_func cfg now s
  = Returned (schedule_led_switch_work (with_led_gpio_line false s)) tt.
Proof.
  intros H0. unfold led_ctrl_func, LED_MIN_LEVEL. rewrite H0. reflexivity.
Qed.

Lemma led_ctrl_func_at_max (cfg : config) (now : timespec64) (s : state) :
  led_level s = led_max_level cfg -> led_level s <> 0 ->
  led_ctrl_func cfg now s
  = Returned (schedule_led_switch_work (with_led_gpio_line true s)) tt.
Proof.
  intros Hm H0. unfold led_ctrl_func, LED_MIN_LEVEL.
  destruct (Z.eqb_spec (led_level s) 0) as [E|_]; [contradiction|].
  rewrite Hm at 1. rewrite Z.eqb_refl. reflexivity.
Qed.

Lemma pwm_iterations_at_boundary
    (cfg : config) (line : bool) (nows : list timespec64) (s : state) :
  (forall now s0, led_level s0 = led_level s ->
     led_ctrl_func cfg now s0
     = Returned (schedule_led_switch_work (with_led_gpio_line line s0)) tt) ->
  led_level (pwm_iterations cfg s nows) = led_level s
  /\ prev_led_switch (pwm_iterations cfg s nows) = prev_led_switch s
  /\ (nows <> [] -> led_gpio_line (pwm_iterations cfg s nows) = line).
Proof.
  intros Hstep. revert s Hstep.
  induction nows as [|now nows IH]; intros s Hstep.
  - cbn. repeat split. intros H. contradiction.
  - cbn [pwm_iterations fold_left].
    rewrite (Hstep now s eq_refl). cbn [final_state].
    set (s1 := schedule_led_switch_work (with_led_gpio_line line s)).
    change (fold_left _ nows s1) with (pwm_iterations cfg s1 nows).
    assert (Hl : led_level s1 = led_level s) by reflexivity.
    destruct (IH s1) as (A & B & C).
    { intros now' s0 E. apply Hstep. rewrite E. exact Hl. }
    split; [rewrite A; exact Hl|]. split; [rewrite B; reflexivity|].
    intros _. destruct nows as [|now2 nows'].
    + reflexivity.
    + apply C. discriminate.
Qed.

(** Duty cycle at the boundaries. However many iterations run and at
    whatever times, while the level is 0 the line is LOW after each of
    them, and while the level is the maximum level and not 0 the line is
    HIGH after each of them; the time stamp of the last transition is never
    touched. *)
Theorem pwm_iterations_hold_boundary_output
    (cfg : config) (nows : list timespec64) (s : state) :
  nows <> [] ->
  (led_level s = 0 ->
   led_gpio_line (pwm_iterations cfg s nows) = false
   /\ prev_led_switch (pwm_iterations cfg s nows) = prev_led_switch s)
  /\ (led_level s = led_max_level cfg -> led_level s <> 0 ->
      led_gpio_line (pwm_iterations cfg s nows) = true
      /\ prev_led_switch (pwm_iterations cfg s nows) = prev_led_switch s).
Proof.
  intros Hne. split.
  - intros H0.
    destruct (pwm_iterations_at_boundary cfg false nows s) as (_ & B & C).
    { intros now s0 E. apply led_ctrl_func_at_zero. rewrite E. exact H0. }
    split; [exact (C Hne) | exact B].
  - intros Hm H0.
    destruct (pwm_iterations_at_boundary cfg true nows s) as (_ & B & C).
    { intros now s0 E. apply led_ctrl_func_at_max; rewrite E; assumption. }
    split; [exact (C Hne) | exact B].
Qed.

Lemma pwm_iterations_hold_boundary_output_witness :
  ([mk_ts 1000 10; mk_ts 1000 70000; mk_ts 5000 0] <> [] /\ led_level boot = 0)
  /\ led_gpio_line
       (pwm_iterations default_config boot
          [mk_ts 1000 10; mk_ts 1000 70000; mk_ts 5000 0])
     = false.
Proof.
  assert (H1 : [mk_ts 1000 10; mk_ts 1000 70000; mk_ts 5000 0] <> [])
    by discriminate.
  assert (H2 : led_level boot = 0) by reflexivity.
  split; [exact (conj H1 H2)|].
  exact (proj1 (proj1 (pwm_iterations_hold_boundary_output default_config
                         [mk_ts 1000 10; mk_ts 1000 70000; mk_ts 5000 0]
                         boot H1) H2)).
Defined.

(** One period, split in two. For a level strictly between 0 and the
    maximum level, a non-negative period and a product [Period * level]
    within [int], both dwells are defined, lie between 0 and the period,
    and add up to the period exactly. *)
Theorem required_delays_split_the_period (cfg : config) (level : Z) :
  0 < level < led_max_level cfg ->
  0 <= pulse_frequency cfg ->
  pulse_frequency cfg * level <= INT_MAX ->
  exists high low : Z,
    required_delay cfg HIGH level = Some high
    /\ required_delay cfg LOW level = Some low
    /\ high + low = pulse_frequency cfg
    /\ 0 <= high <= pulse_frequency cfg
    /\ 0 <= low <= pulse_frequency cfg.
Proof.
  intros Hl Hp Hpl.
  assert (Hp' : INT_MIN <= pulse_frequency cfg <= INT_MAX)
    by (unfold INT_MIN, INT_MAX in *; nia).
  assert (Hpl' : INT_MIN <= pulse_frequency cfg * level <= INT_MAX)
    by (unfold INT_MIN, INT_MAX in *; nia).
  destruct (required_delay_in_range cfg level Hl Hp' Hpl') as [Hh Hlo].
  destruct (quot_share_bounds (pulse_frequency cfg) level (led_max_level cfg) Hl)
    as [Hpos _].
  specialize (Hpos Hp).
  eexists. eexists. split; [exact Hh|]. split; [exact Hlo|]. lia.
Qed.

Lemma required_delays_split_the_period_witness :
  (0 < 3 < led_max_level default_config
   /\ 0 <= pulse_frequency default_config
   /\ pulse_frequency default_config * 3 <= INT_MAX)
  /\ exists high low : Z,
       required_delay default_config HIGH 3 = Some high
       /\ required_delay default_config LOW 3 = Some low
       /\ high + low = pulse_frequency default_config
       /\ 0 <= high <= pulse_frequency default_config
       /\ 0 <= low <= pulse_frequency default_config.
Proof.
  assert (H1 : 0 < 3 < led_max_level default_config)
    by (vm_compute; split; reflexivity).
  assert (H2 : 0 <= pulse_frequency default_config)
    by (vm_compute; discriminate).
  assert (H3 : pulse_frequency default_config * 3 <= INT_MAX)
    by (vm_compute; discriminate).
  split; [exact (conj H1 (conj H2 H3))|].
  exact (required_delays_split_the_period default_config 3 H1 H2 H3).
Defined.

(** Brighter means longer HIGH. For two levels strictly between 0 and
    the maximum level, the higher level has a HIGH dwell at least as long
    and a LOW dwell at most as long. *)
Theorem required_delay_monotone_in_level (cfg : config) (l1 l2 : Z) :
  0 < l1 -> l1 <= l2 -> l2 < led_max_level cfg ->
  0 <= pulse_frequency cfg ->
  pulse_frequency cfg * l2 <= INT_MAX ->
  exists h1 h2 w1 w2 : Z,
    required_delay cfg HIGH l1 = Some h1
    /\ required_delay cfg HIGH l2 = Some h2
    /\ required_delay cfg LOW l1 = Some w1
    /\ required_delay cfg LOW l2 = Some w2
    /\ h1 <= h2 /\ w2 <= w1.
Proof.
  intros H1 H12 H2 Hp Hpl.
  assert (Hp' : INT_MIN <= pulse_frequency cfg <= INT_MAX)
    by (unfold INT_MIN, INT_MAX in *; nia).
  assert (Hpl2 : INT_MIN <= pulse_frequency cfg * l2 <= INT_MAX)
    by (unfold INT_MIN, INT_MAX in *; nia).
  assert (Hpl1 : INT_MIN <= pulse_frequency cfg * l1 <= INT_MAX)
    by (unfold INT_MIN, INT_MAX in *; nia).
  destruct (required_delay_in_range cfg l1 ltac:(lia) Hp' Hpl1) as [Hh1 Hw1].
  destruct (required_delay_in_range cfg l2 ltac:(lia) Hp' Hpl2) as [Hh2 Hw2].
  assert (Hq : Z.quot (pulse_frequency cfg * l1) (led_max_level cfg)
               <= Z.quot (pulse_frequency cfg * l2) (led_max_level cfg)).
  { apply Z.quot_le_mono; [lia | nia]. }
  do 4 eexists.
  split; [exact Hh1|]. split; [exact Hh2|].
  split; [exact Hw1|]. split; [exact Hw2|]. lia.
Qed.

Lemma required_delay_monotone_in_level_witness :
  (0 < 1 /\ 1 <= 4 /\ 4 < led_max_level default_config
   /\ 0 <= pulse_frequency default_config
   /\ pulse_frequency default_config * 4 <= INT_MAX)
  /\ required_delay default_config HIGH 1 = Some 20000
  /\ required_delay default_config HIGH 4 = Some 80000.
Proof.
  assert (H1 : 0 < 1) by reflexivity.
  assert (H2 : 1 <= 4) by discriminate.
  assert (H3 : 4 < led_max_level default_config) by reflexivity.
  assert (H4 : 0 <= pulse_frequency default_config)
    by (vm_compute; discriminate).
  assert (H5 : pulse_frequency default_config * 4 <= INT_MAX)
    by (vm_compute; discriminate).
  split; [exact (conj H1 (conj H2 (conj H3 (conj H4 H5))))|].
  destruct (required_delay_monotone_in_level default_config 1 4 H1 H2 H3 H4 H5)
    as (h1 & h2 & w1 & w2 & E1 & E2 & _).
  split; reflexivity.
Defined.

End PwmMore.

Section PwmShortPeriod.
Import CInt Time64 Led Sample Work.

(** With less than 1148 s since the last transition the elapsed time the
    engine computes fits in [int], and from one second on it is at least
    1000000. *)
Lemma nanos_since_below_1148_seconds (a b : timespec64) :
  timespec64_valid_strict a -> timespec64_valid_strict b ->
  0 <= timespec64_to_ns a - timespec64_to_ns b < 1148 * NSEC_PER_SEC ->
  (timespec64_to_ns a - timespec64_to_ns b < NSEC_PER_SEC ->
   nanos_since (timespec64_sub a b)
   = timespec64_to_ns a - timespec64_to_ns b)
  /\ (NSEC_PER_SEC <= timespec64_to_ns a - timespec64_to_ns b ->
      1000000 <= nanos_since (timespec64_sub a b)).
Proof.
  intros Ha Hb He.
  destruct (timespec64_sub_valid a b Ha Hb) as (Hsum & Hns & Hsec).
  set (d := timespec64_sub a b) in *.
  set (e := timespec64_to_ns a - timespec64_to_ns b) in *.
  unfold NSEC_PER_SEC, KTIME_SEC_MAX in *.
  assert (Hs : 0 <= tv_sec d <= 1147) by nia.
  assert (Hn : nanos_since d = tv_sec d * 1000000 + tv_nsec d).
  { unfold nanos_since, USEC_PER_SEC.
    rewrite (to_s64_in_range (tv_sec d * 1000000)) by lia.
    rewrite to_s64_in_range by lia.
    rewrite to_int_in_range by (unfold INT_MIN, INT_MAX; lia).
    reflexivity. }
  rewrite Hn. split; intros H; nia.
Qed.

(** With a period between 0 and one millisecond (the default is 0.1 ms)
    and between 0 and 1148 s since the last transition (the clock was not
    set back), an iteration at a level strictly between 0 and the maximum
    level flips the line and records the current time iff the elapsed
    nanoseconds have reached the dwell of the current line value, and
    otherwise changes neither; either way it returns and has queued
    itself again. *)
Theorem led_ctrl_func_flips_iff_dwell_elapsed_short_period
    (cfg : config) (now : timespec64) (s : state) :
  timespec64_valid_strict now ->
  timespec64_valid_strict (prev_led_switch s) ->
  0 <= timespec64_to_ns now - timespec64_to_ns (prev_led_switch s)
    < 1148 * NSEC_PER_SEC ->
  0 < led_level s < led_max_level cfg ->
  0 <= pulse_frequency cfg <= 1000000 ->
  pulse_frequency cfg * led_level s <= INT_MAX ->
  let elapsed :=
    timespec64_to_ns now - timespec64_to_ns (prev_led_switch s) in
  let share :=
    Z.quot (pulse_frequency cfg * led_level s) (led_max_level cfg) in
  let dwell :=
    if led_gpio_line s then share else pulse_frequency cfg - share in
  led_ctrl_func cfg now s
  = Returned
      (schedule_led_switch_work
         (if dwell <=? elapsed
          then with_prev_led_switch now
                 (with_led_gpio_line (negb (led_gpio_line s)) s)
          else s))
      tt
  /\ returns (led_ctrl_func cfg now s) = true
  /\ led_switch_work (final_state (led_ctrl_func cfg now s)) = true
  /\ (dwell <= elapsed ->
      led_gpio_line (final_state (led_ctrl_func cfg now s))
      = negb (led_gpio_line s)
      /\ prev_led_switch (final_state (led_ctrl_func cfg now s)) = now)
  /\ (elapsed < dwell ->
      led_gpio_line (final_state (led_ctrl_func cfg now s)) = led_gpio_line s
      /\ prev_led_switch (final_state (led_ctrl_func cfg now s))
         = prev_led_switch s).
Proof.
  intros Hnow Hprev Hel Hl Hp Hpl elapsed share dwell.
  assert (E : led_ctrl_func cfg now s
              = Returned
                  (schedule_led_switch_work
                     (if dwell <=? elapsed
                      then with_prev_led_switch now
                             (with_led_gpio_line (negb (led_gpio_line s)) s)
                      else s))
                  tt).
  {
    destruct (nanos_since_below_1148_seconds now (prev_led_switch s)
                Hnow Hprev Hel) as [Hshort Hlong].
    fold elapsed in Hshort, Hlong, Hel.
    assert (Hp' : INT_MIN <= pulse_frequency cfg <= INT_MAX)
      by (unfold INT_MIN, INT_MAX; lia).
    assert (Hpl' : INT_MIN <= pulse_frequency cfg * led_level s <= INT_MAX)
      by (unfold INT_MIN, INT_MAX in *; nia).
    destruct (required_delay_in_range cfg (led_level s) Hl Hp' Hpl') as [Hhi Hlo].
    destruct (quot_share_bounds (pulse_frequency cfg) (led_level s)
                (led_max_level cfg) Hl) as [Hpos _].
    specialize (Hpos (proj1 Hp)). fold share in Hpos, Hhi, Hlo.
    assert (Hd : 0 <= dwell <= 1000000)
      by (subst dwell; destruct (led_gpio_line s); lia).
    assert (Hcmp : (nanos_since (timespec64_sub now (prev_led_switch s))
                    >=? dwell) = (dwell <=? elapsed)).
    { rewrite Z.geb_leb. unfold NSEC_PER_SEC in *.
      destruct (Z.lt_ge_cases elapsed 1000000000) as [Hlt|Hge].
      - rewrite (Hshort Hlt). reflexivity.
      - specialize (Hlong Hge).
        rewrite (proj2 (Z.leb_le _ _)) by lia.
        rewrite (proj2 (Z.leb_le _ _)) by lia. reflexivity. }
    unfold led_ctrl_func, LED_MIN_LEVEL.
    destruct (Z.eqb_spec (led_level s) 0) as [E|_]; [lia|].
    destruct (Z.eqb_spec (led_level s) (led_max_level cfg)) as [E|_]; [lia|].
    cbn [orb]. unfold gpio_get_value.
    unfold dwell in Hcmp |- *.
    destruct (led_gpio_line s) eqn:Hline.
    - rewrite Hhi, Hcmp. destruct (share <=? elapsed); reflexivity.
    - rewrite Hlo, Hcmp.
      destruct (pulse_frequency cfg - share <=? elapsed); reflexivity.
  }
  split; [exact E|].
  rewrite E. cbn [returns final_state].
  split; [reflexivity|]. split; [reflexivity|]. split.
  - intros H. rewrite (proj2 (Z.leb_le _ _) H). split; reflexivity.
  - intros H. rewrite (proj2 (Z.leb_gt _ _) H). split; reflexivity.
Qed.

Lemma led_ctrl_func_flips_iff_dwell_elapsed_short_period_witness :
  (timespec64_valid_strict (mk_ts 1900 0)
   /\ timespec64_valid_strict (prev_led_switch dimmed)
   /\ 0 <= timespec64_to_ns (mk_ts 1900 0)
           - timespec64_to_ns (prev_led_switch dimmed) < 1148 * NSEC_PER_SEC
   /\ 0 < led_level dimmed < led_max_level default_config
   /\ 0 <= pulse_frequency default_config <= 1000000
   /\ pulse_frequency default_config * led_level dimmed <= INT_MAX)
  /\ led_gpio_line
       (final_state (led_ctrl_func default_config (mk_ts 1900 0) dimmed))
     = true
  /\ prev_led_switch
       (final_state (led_ctrl_func default_config (mk_ts 1900 0) dimmed))
     = mk_ts 1900 0.
Proof.
  assert (H1 : timespec64_valid_strict (mk_ts 1900 0))
    by (vm_compute; repeat split; discriminate).
  assert (H2 : timespec64_valid_strict (prev_led_switch dimmed))
    by (vm_compute; repeat split; discriminate).
  assert (H3 : 0 <= timespec64_to_ns (mk_ts 1900 0)
                    - timespec64_to_ns (prev_led_switch dimmed)
               < 1148 * NSEC_PER_SEC)
    by (vm_compute; split; [discriminate | reflexivity]).
  assert (H4 : 0 < led_level dimmed < led_max_level default_config)
    by (vm_compute; split; reflexivity).
  assert (H5 : 0 <= pulse_frequency default_config <= 1000000)
    by (vm_compute; split; discriminate).
  assert (H6 : pulse_frequency default_config * led_level dimmed <= INT_MAX)
    by (vm_compute; discriminate).
  split; [exact (conj H1 (conj H2 (conj H3 (conj H4 (conj H5 H6)))))|].
  assert (H7 : (if led_gpio_line dimmed
                then Z.quot (pulse_frequency default_config * led_level dimmed)
                            (led_max_level default_config)
                else pulse_frequency default_config
                     - Z.quot (pulse_frequency default_config * led_level dimmed)
                              (led_max_level default_config))
               <= timespec64_to_ns (mk_ts 1900 0)
                  - timespec64_to_ns (prev_led_switch dimmed))
    by (vm_compute; discriminate).
  exact (proj1 (proj2 (proj2 (proj2
           (led_ctrl_func_flips_iff_dwell_elapsed_short_period
              default_config (mk_ts 1900 0) dimmed H1 H2 H3 H4 H5 H6))))
           H7).
Defined.

End PwmShortPeriod.

(** ** Sequences of edges *)

Section EdgeSequences.
Import CInt Time64 Led Sample Work.

Lemma button_irq_handler_down_lp64
    (cfg : config) (now : timespec64) (s : state) :
  timespec64_valid_strict now ->
  timespec64_valid_strict (prev_down_button_irq s) ->
  button_irq_handler LP64 cfg (down_button_irq cfg) now s
  = (IRQ_HANDLED,
     if BUTTON_DEBOUNCE * NSEC_PER_MSEC
        <=? timespec64_to_ns now - timespec64_to_ns (prev_down_button_irq s)
     then schedule_led_level_work
            (with_led_event DOWN (with_prev_down_button_irq now s))
     else s).
Proof.
  intros Hnow Hdown. unfold button_irq_handler.
  rewrite Z.eqb_refl.
  rewrite (millis_below_window now (prev_down_button_irq s) Hnow Hdown).
  destruct (_ <=? _); reflexivity.
Qed.

Lemma button_irq_handler_up_lp64
    (cfg : config) (now : timespec64) (s : state) :
  timespec64_valid_strict now ->
  timespec64_valid_strict (prev_up_button_irq s) ->
  down_button_irq cfg <> up_button_irq cfg ->
  button_irq_handler LP64 cfg (up_button_irq cfg) now s
  = (IRQ_HANDLED,
     if BUTTON_DEBOUNCE * NSEC_PER_MSEC
        <=? timespec64_to_ns now - timespec64_to_ns (prev_up_button_irq s)
     then schedule_led_level_work
            (with_led_event UP (with_prev_up_button_irq now s))
     else s).
Proof.
  intros Hnow Hup Hirq. unfold button_irq_handler.
  destruct (Z.eqb_spec (up_button_irq cfg) (down_button_irq cfg)) as [E|_];
    [congruence|].
  rewrite Z.eqb_refl.
  rewrite (millis_below_window now (prev_up_button_irq s) Hnow Hup).
  destruct (_ <=? _); reflexivity.
Qed.

(** Bounce. On an LP64 kernel with valid clock readings: once an edge on
    a button line has been accepted at time [t1], a further edge on the
    same line at a time [t2] less than 200 ms later (or earlier, should
    the clock have been set back) changes nothing at all, so the pair
    counts as one event. *)
Theorem debounce_second_edge_within_window_is_dropped
    (cfg : config) (t1 t2 : timespec64) (s : state) :
  timespec64_valid_strict t1 -> timespec64_valid_strict t2 ->
  timespec64_valid_strict (prev_down_button_irq s) ->
  timespec64_valid_strict (prev_up_button_irq s) ->
  down_button_irq cfg <> up_button_irq cfg ->
  timespec64_to_ns t2 - timespec64_to_ns t1 < BUTTON_DEBOUNCE * NSEC_PER_MSEC ->
  (BUTTON_DEBOUNCE * NSEC_PER_MSEC
   <= timespec64_to_ns t1 - timespec64_to_ns (prev_down_button_irq s) ->
   let s1 := snd (button_irq_handler LP64 cfg (down_button_irq cfg) t1 s) in
   led_event s1 = DOWN /\ led_level_work s1 = true
   /\ button_irq_handler LP64 cfg (down_button_irq cfg) t2 s1
      = (IRQ_HANDLED, s1))
  /\ (BUTTON_DEBOUNCE * NSEC_PER_MSEC
      <= timespec64_to_ns t1 - timespec64_to_ns (prev_up_button_irq s) ->
      let s1 := snd (button_irq_handler LP64 cfg (up_button_irq cfg) t1 s) in
      led_event s1 = UP /\ led_level_work s1 = true
      /\ button_irq_handler LP64 cfg (up_button_irq cfg) t2 s1
         = (IRQ_HANDLED, s1)).
Proof.
  intros H1 H2 Hd Hu Hirq Hclose. split.
  - intros Hacc s1. subst s1.
    rewrite (button_irq_handler_down_lp64 cfg t1 s H1 Hd).
    rewrite (proj2 (Z.leb_le _ _) Hacc). cbn [snd].
    split; [reflexivity|]. split; [reflexivity|].
    rewrite button_irq_handler_down_lp64; [|exact H2|exact H1].
    cbn [schedule_led_level_work with_led_level_work with_led_event
           with_prev_down_button_irq prev_down_button_irq].
    rewrite (proj2 (Z.leb_gt _ _) Hclose). reflexivity.
  - intros Hacc s1. subst s1.
    rewrite (button_irq_handler_up_lp64 cfg t1 s H1 Hu Hirq).
    rewrite (proj2 (Z.leb_le _ _) Hacc). cbn [snd].
    split; [reflexivity|]. split; [reflexivity|].
    rewrite button_irq_handler_up_lp64; [|exact H2|exact H1|exact Hirq].
    cbn [schedule_led_level_work with_led_level_work with_led_event
           with_prev_up_button_irq prev_up_button_irq].
    rewrite (proj2 (Z.leb_gt _ _) Hclose). reflexivity.
Qed.

Lemma debounce_second_edge_within_window_is_dropped_witness :
  (timespec64_valid_strict (mk_ts 1001 0)
   /\ timespec64_valid_strict (mk_ts 1001 199999999)
   /\ timespec64_valid_strict (prev_down_button_irq boot)
   /\ timespec64_valid_strict (prev_up_button_irq boot)
   /\ down_button_irq default_config <> up_button_irq default_config
   /\ timespec64_to_ns (mk_ts 1001 199999999) - timespec64_to_ns (mk_ts 1001 0)
      < BUTTON_DEBOUNCE * NSEC_PER_MSEC
   /\ BUTTON_DEBOUNCE * NSEC_PER_MSEC
      <= timespec64_to_ns (mk_ts 1001 0)
         - timespec64_to_ns (prev_up_button_irq boot))
  /\ button_irq_handler LP64 default_config (up_button_irq default_config)
       (mk_ts 1001 199999999)
       (snd (button_irq_handler LP64 default_config
               (up_button_irq default_config) (mk_ts 1001 0) boot))
     = (IRQ_HANDLED,
        snd (button_irq_handler LP64 default_config
               (up_button_irq default_config) (mk_ts 1001 0) boot)).
Proof.
  assert (H1 : timespec64_valid_strict (mk_ts 1001 0))
    by (vm_compute; repeat split; discriminate).
  assert (H2 : timespec64_valid_strict (mk_ts 1001 199999999))
    by (vm_compute; repeat split; discriminate).
  assert (H3 : timespec64_valid_strict (prev_down_button_irq boot))
    by (vm_compute; repeat split; discriminate).
  assert (H4 : timespec64_valid_strict (prev_up_button_irq boot))
    by (vm_compute; repeat split; discriminate).
  assert (H5 : down_button_irq default_config <> up_button_irq default_config)
    by (vm_compute; discriminate).
  assert (H6 : timespec64_to_ns (mk_ts 1001 199999999)
               - timespec64_to_ns (mk_ts 1001 0)
               < BUTTON_DEBOUNCE * NSEC_PER_MSEC) by (vm_compute; reflexivity).
  assert (H7 : BUTTON_DEBOUNCE * NSEC_PER_MSEC
               <= timespec64_to_ns (mk_ts 1001 0)
                  - timespec64_to_ns (prev_up_button_irq boot))
    by (vm_compute; discriminate).
  split; [exact (conj H1 (conj H2 (conj H3 (conj H4 (conj H5 (conj H6 H7))))))|].
  exact (proj2 (proj2 (proj2 (debounce_second_edge_within_window_is_dropped
                                default_config (mk_ts 1001 0)
                                (mk_ts 1001 199999999) boot
                                H1 H2 H3 H4 H5 H6) H7))).
Defined.

(** The last event wins. On an LP64 kernel with valid clock readings: if
    an edge on the up line and then an edge on the down line are both
    accepted before the worker runs, one brightness work is queued with
    [DOWN] pending; the single run that follows changes the level exactly
    as [DOWN] alone would have from the state before both edges, and
    leaves nothing queued, so the [UP] is lost. The debounce clocks of the
    two lines do not interact: the second edge is judged against the down
    line's own clock. *)
Theorem last_accepted_event_wins
    (cfg : config) (t1 t2 : timespec64) (s : state) :
  timespec64_valid_strict t1 -> timespec64_valid_strict t2 ->
  timespec64_valid_strict (prev_down_button_irq s) ->
  timespec64_valid_strict (prev_up_button_irq s) ->
  down_button_irq cfg <> up_button_irq cfg ->
  BUTTON_DEBOUNCE * NSEC_PER_MSEC
  <= timespec64_to_ns t1 - timespec64_to_ns (prev_up_button_irq s) ->
  BUTTON_DEBOUNCE * NSEC_PER_MSEC
  <= timespec64_to_ns t2 - timespec64_to_ns (prev_down_button_irq s) ->
  let s1 := snd (button_irq_handler LP64 cfg (up_button_irq cfg) t1 s) in
  let s2 := snd (button_irq_handler LP64 cfg (down_button_irq cfg) t2 s1) in
  led_event s1 = UP
  /\ led_event s2 = DOWN
  /\ exists o : outcome (Z * Z),
       run_led_level_work cfg s2 = Some o
       /\ led_level (final_state o) = led_level (process_event cfg s DOWN)
       /\ led_state (final_state o) = led_state (process_event cfg s DOWN)
       /\ run_led_level_work cfg (final_state o) = None.
Proof.
  intros H1 H2 Hd Hu Hirq Ha1 Ha2 s1 s2.
  assert (E1 : s1 = schedule_led_level_work
                      (with_led_event UP (with_prev_up_button_irq t1 s))).
  { subst s1. rewrite (button_irq_handler_up_lp64 cfg t1 s H1 Hu Hirq).
    rewrite (proj2 (Z.leb_le _ _) Ha1). reflexivity. }
  assert (E2 : s2 = schedule_led_level_work
                      (with_led_event DOWN (with_prev_down_button_irq t2 s1))).
  { subst s2. rewrite button_irq_handler_down_lp64;
      [|exact H2|rewrite E1; exact Hd].
    rewrite E1 at 1.
    cbn [schedule_led_level_work with_led_level_work with_led_event
           with_prev_up_button_irq prev_down_button_irq].
    rewrite (proj2 (Z.leb_le _ _) Ha2). reflexivity. }
  split; [rewrite E1; reflexivity|]. split; [rewrite E2; reflexivity|].
  exists (led_level_func cfg (with_led_level_work false s2)).
  split; [rewrite E2; reflexivity|].
  unfold process_event. rewrite !final_state_led_level_func.
  rewrite E2, E1. unfold run_led_level_work.
  cbn [schedule_led_level_work with_led_level_work with_led_event
         with_prev_up_button_irq with_prev_down_button_irq
         led_state led_event led_level].
  destruct (led_state s); repeat split; reflexivity.
Qed.

Lemma last_accepted_event_wins_witness :
  (timespec64_valid_strict (mk_ts 1001 0)
   /\ timespec64_valid_strict (mk_ts 1001 5000)
   /\ timespec64_valid_strict (prev_down_button_irq dimmed)
   /\ timespec64_valid_strict (prev_up_button_irq dimmed)
   /\ down_button_irq default_config <> up_button_irq default_config
   /\ BUTTON_DEBOUNCE * NSEC_PER_MSEC
      <= timespec64_to_ns (mk_ts 1001 0)
         - timespec64_to_ns (prev_up_button_irq dimmed)
   /\ BUTTON_DEBOUNCE * NSEC_PER_MSEC
      <= timespec64_to_ns (mk_ts 1001 5000)
         - timespec64_to_ns (prev_down_button_irq dimmed))
  /\ led_event
       (snd (button_irq_handler LP64 default_config
               (down_button_irq default_config) (mk_ts 1001 5000)
               (snd (button_irq_handler LP64 default_config
                       (up_button_irq default_config) (mk_ts 1001 0) dimmed))))
     = DOWN.
Proof.
  assert (H1 : timespec64_valid_strict (mk_ts 1001 0))
    by (vm_compute; repeat split; discriminate).
  assert (H2 : timespec64_valid_strict (mk_ts 1001 5000))
    by (vm_compute; repeat split; discriminate).
  assert (H3 : timespec64_valid_strict (prev_down_button_irq dimmed))
    by (vm_compute; repeat split; discriminate).
  assert (H4 : timespec64_valid_strict (prev_up_button_irq dimmed))
    by (vm_compute; repeat split; discriminate).
  assert (H5 : down_button_irq default_config <> up_button_irq default_config)
    by (vm_compute; discriminate).
  assert (H7 : BUTTON_DEBOUNCE * NSEC_PER_MSEC
               <= timespec64_to_ns (mk_ts 1001 0)
                  - timespec64_to_ns (prev_up_button_irq dimmed))
    by (vm_compute; discriminate).
  assert (H8 : BUTTON_DEBOUNCE * NSEC_PER_MSEC
               <= timespec64_to_ns (mk_ts 1001 5000)
                  - timespec64_to_ns (prev_down_button_irq dimmed))
    by (vm_compute; discriminate).
  split;
    [exact (conj H1 (conj H2 (conj H3 (conj H4 (conj H5 (conj H7 H8))))))|].
  exact (proj1 (proj2 (last_accepted_event_wins default_config (mk_ts 1001 0)
                         (mk_ts 1001 5000) dimmed
                         H1 H2 H3 H4 H5 H7 H8))).
Defined.

End EdgeSequences.

(** ** Loading and unloading *)

Section LoadUnload.
Import Startup Teardown.

Lemma mem_false_iff (x : Z) (l : list Z) : mem x l = false <-> ~ In x l.
Proof.
  unfold mem. split.
  - intros H Hin. assert (E : existsb (Z.eqb x) l = true).
    { apply existsb_exists. exists x. split; [exact Hin | apply Z.eqb_refl]. }
    congruence.
  - intros H. destruct (existsb (Z.eqb x) l) eqn:E; [|reflexivity].
    apply existsb_exists in E. destruct E as (y & Hy & Exy).
    apply Z.eqb_eq in Exy. subst y. contradiction.
Qed.

Lemma setup_pwm_led_gpio_succeeds_iff
    (b : board) (g : Z) (d : direction) (h : held) :
  fst (setup_pwm_led_gpio b g d h) = 0
  <-> (gpio_is_valid b g = true /\ mem g (held_gpios h) = false
       /\ gpio_request_result b g = 0).
Proof.
  unfold setup_pwm_led_gpio, gpio_request, EINVAL, EBUSY.
  destruct (gpio_is_valid b g); cbn [negb fst snd].
  - destruct (mem g (held_gpios h)); cbn [fst snd].
    + split; [discriminate | intros (_ & H & _); discriminate].
    + destruct (Z.ltb_spec (gpio_request_result b g) 0) as [Hn|Hn];
        cbn [fst snd].
      * rewrite (proj2 (Z.ltb_lt _ _) Hn). cbn [fst].
        split; [lia | intros (_ & _ & H); lia].
      * rewrite (proj2 (Z.ltb_ge _ _) Hn). cbn [fst].
        split; [intros H; repeat split; exact H | intros (_ & _ & H); exact H].
  - split; [discriminate | intros (H & _); discriminate].
Qed.

Lemma setup_pwm_led_gpio_keeps_irqs
    (b : board) (g : Z) (d : direction) (h : held) :
  held_irqs (snd (setup_pwm_led_gpio b g d h)) = held_irqs h.
Proof.
  unfold setup_pwm_led_gpio, gpio_request.
  destruct (gpio_is_valid b g); cbn [negb snd]; [|reflexivity].
  destruct (mem g (held_gpios h)); cbn [snd]; [reflexivity|].
  destruct (gpio_request_result b g <? 0) eqn:E; cbn [snd];
    rewrite ?E; reflexivity.
Qed.

Lemma setup_pwm_led_gpios_keeps_irqs (b : board) (p : lines) (h : held) :
  held_irqs (snd (setup_pwm_led_gpios b p h)) = held_irqs h.
Proof.
  unfold setup_pwm_led_gpios.
  pose proof (setup_pwm_led_gpio_keeps_irqs b (down_button_gpio p) INPUT h) as K1.
  destruct (setup_pwm_led_gpio b (down_button_gpio p) INPUT h) as [r1 h1].
  cbn [snd] in K1.
  destruct (negb (r1 =? 0)); [exact K1|].
  pose proof (setup_pwm_led_gpio_keeps_irqs b (up_button_gpio p) INPUT h1) as K2.
  destruct (setup_pwm_led_gpio b (up_button_gpio p) INPUT h1) as [r2 h2].
  cbn [snd] in K2.
  destruct (negb (r2 =? 0)); [cbn [snd]; congruence|].
  pose proof (setup_pwm_led_gpio_keeps_irqs b (led_gpio p) OUTPUT h2) as K3.
  destruct (setup_pwm_led_gpio b (led_gpio p) OUTPUT h2) as [r3 h3].
  cbn [snd] in K3.
  destruct (negb (r3 =? 0)); cbn [snd]; congruence.
Qed.

(** The three lines are acquired from nothing held exactly when they
    exist, are pairwise different and are granted. *)
Lemma setup_pwm_led_gpios_succeeds_iff (b : board) (p : lines) :
  fst (setup_pwm_led_gpios b p nothing_held) = 0
  <-> ((gpio_is_valid b (down_button_gpio p) = true
        /\ gpio_is_valid b (up_button_gpio p) = true
        /\ gpio_is_valid b (led_gpio p) = true)
       /\ (down_button_gpio p <> up_button_gpio p
           /\ down_button_gpio p <> led_gpio p
           /\ up_button_gpio p <> led_gpio p)
       /\ (gpio_request_result b (down_button_gpio p) = 0
           /\ gpio_request_result b (up_button_gpio p) = 0
           /\ gpio_request_result b (led_gpio p) = 0)).
Proof.
  unfold setup_pwm_led_gpios.
  pose proof (setup_pwm_led_gpio_succeeds_iff b (down_button_gpio p) INPUT
                nothing_held) as S1.
  pose proof (setup_pwm_led_gpio_from b (down_button_gpio p) INPUT
                nothing_held) as F1.
  destruct (setup_pwm_led_gpio b (down_button_gpio p) INPUT nothing_held)
    as [r1 h1].
  cbn [fst snd] in S1, F1.
  rewrite mem_false_iff in S1. cbn [nothing_held held_gpios held_irqs In] in S1, F1.
  destruct (Z.eqb_spec r1 0) as [E1|N1]; cbn [negb fst].
  2:{ split; [intros; contradiction|].
      intros ((V1 & _) & _ & (R1 & _)). apply S1. tauto. }
  specialize (F1 E1). subst h1.
  pose proof (setup_pwm_led_gpio_succeeds_iff b (up_button_gpio p) INPUT
                (mk_held [down_button_gpio p] [])) as S2.
  pose proof (setup_pwm_led_gpio_from b (up_button_gpio p) INPUT
                (mk_held [down_button_gpio p] [])) as F2.
  destruct (setup_pwm_led_gpio b (up_button_gpio p) INPUT
              (mk_held [down_button_gpio p] [])) as [r2 h2].
  cbn [fst snd] in S2, F2.
  rewrite mem_false_iff in S2. cbn [held_gpios held_irqs In] in S2, F2.
  destruct (Z.eqb_spec r2 0) as [E2|N2]; cbn [negb fst].
  2:{ split; [intros; contradiction|].
      intros ((_ & V2 & _) & (D1 & _) & (_ & R2 & _)). apply S2.
      repeat split; try assumption. intros [H|[]]. congruence. }
  specialize (F2 E2). subst h2.
  pose proof (setup_pwm_led_gpio_succeeds_iff b (led_gpio p) OUTPUT
                (mk_held [up_button_gpio p; down_button_gpio p] [])) as S3.
  destruct (setup_pwm_led_gpio b (led_gpio p) OUTPUT
              (mk_held [up_button_gpio p; down_button_gpio p] [])) as [r3 h3].
  cbn [fst snd] in S3.
  rewrite mem_false_iff in S3. cbn [held_gpios held_irqs In] in S3.
  apply proj1 in S1. specialize (S1 E1).
  apply proj1 in S2. specialize (S2 E2).
  destruct (Z.eqb_spec r3 0) as [E3|N3]; cbn [negb fst].
  - apply proj1 in S3. specialize (S3 E3).
    split; [intros _|intros _; exact E3].
    destruct S1 as (V1 & M1 & R1). destruct S2 as (V2 & M2 & R2).
    destruct S3 as (V3 & M3 & R3).
    repeat split; try assumption.
    + intros E. apply M2. left. exact E.
    + intros E. apply M3. right. left. exact E.
    + intros E. apply M3. left. exact E.
  - split; [intros; contradiction|].
    intros ((_ & _ & V3) & (_ & D2 & D3) & (_ & _ & R3)). apply S3.
    repeat split; try assumption. intros [H|[H|[]]]; congruence.
Qed.

Lemma setup_pwm_led_irq_shape (b : board) (g : Z) (h : held) :
  let '(ret, irq, h') := setup_pwm_led_irq b g h in
  irq = gpio_to_irq b g
  /\ (ret = 0 <->
      0 <= irq /\ mem irq (held_irqs h) = false
      /\ request_irq_result b irq = 0)
  /\ (ret = 0 -> h' = mk_held (held_gpios h) (irq :: held_irqs h))
  /\ held_gpios h' = held_gpios h.
Proof.
  unfold setup_pwm_led_irq, request_irq, EBUSY.
  destruct (Z.ltb_spec (gpio_to_irq b g) 0) as [Hn|Hn].
  - split; [reflexivity|]. split; [|split; [lia|reflexivity]].
    split; [lia | intros (H & _); lia].
  - destruct (mem (gpio_to_irq b g) (held_irqs h)) eqn:M; cbn.
    + split; [reflexivity|]. split; [|split; [discriminate|reflexivity]].
      split; [discriminate | intros (_ & H & _); congruence].
    + destruct (Z.ltb_spec (request_irq_result b (gpio_to_irq b g)) 0)
        as [Hr|Hr]; cbn.
      * rewrite (proj2 (Z.ltb_lt _ _) Hr).
        split; [reflexivity|]. split; [|split; [lia|reflexivity]].
        split; [lia | intros (_ & _ & H); lia].
      * rewrite (proj2 (Z.ltb_ge _ _) Hr).
        split; [reflexivity|]. split; [|split; reflexivity].
        split; [intros H; repeat split; assumption | intros (_ & _ & H); exact H].
Qed.

Lemma pwm_led_init_success (b : board) (p : lines) :
  fst (pwm_led_init b p nothing_held) = 0 ->
  loadable b p
  /\ snd (pwm_led_init b p nothing_held)
     = mk_held [led_gpio p; up_button_gpio p; down_button_gpio p]
               [gpio_to_irq b (up_button_gpio p);
                gpio_to_irq b (down_button_gpio p)]
  /\ irqs_after_init b p nothing_held
     = (gpio_to_irq b (down_button_gpio p), gpio_to_irq b (up_button_gpio p)).
Proof.
  unfold pwm_led_init, irqs_after_init, loadable.
  pose proof (setup_pwm_led_gpios_succeeds_iff b p) as G.
  pose proof (setup_pwm_led_gpios_from_nothing b p) as F.
  destruct (setup_pwm_led_gpios b p nothing_held) as [r h1].
  cbn [fst snd] in G, F.
  destruct (Z.eqb_spec r 0) as [E|N]; cbn [negb fst snd];
    [|intros; contradiction].
  specialize (F E). subst h1. apply proj1 in G. specialize (G E).
  destruct G as (GV & GD & GR).
  unfold setup_pwm_led_irqs, stored_irqs.
  pose proof (setup_pwm_led_irq_shape b (down_button_gpio p)
                (mk_held [led_gpio p; up_button_gpio p; down_button_gpio p] []))
    as S1.
  destruct (setup_pwm_led_irq b (down_button_gpio p) _) as [[r1 i1] h2].
  destruct S1 as (I1 & R1 & H1 & _). subst i1.
  destruct (Z.eq_dec r1 0) as [E1|N1];
    [subst r1; cbn [Z.eqb negb fst snd]
    |repeat (rewrite (proj2 (Z.eqb_neq _ _) N1); cbn [negb fst snd]);
     intros; contradiction].
  specialize (H1 eq_refl). subst h2. apply proj1 in R1.
  specialize (R1 eq_refl).
  cbn [held_gpios held_irqs] in *.
  pose proof (setup_pwm_led_irq_shape b (up_button_gpio p)
                (mk_held [led_gpio p; up_button_gpio p; down_button_gpio p]
                         [gpio_to_irq b (down_button_gpio p)])) as S2.
  destruct (setup_pwm_led_irq b (up_button_gpio p) _) as [[r2 i2] h3].
  destruct S2 as (I2 & R2 & H2 & _). subst i2.
  destruct (Z.eq_dec r2 0) as [E2|N2];
    [subst r2; cbn [Z.eqb negb fst snd]
    |repeat (rewrite (proj2 (Z.eqb_neq _ _) N2); cbn [negb fst snd]);
     intros; contradiction].
  specialize (H2 eq_refl). subst h3. apply proj1 in R2.
  specialize (R2 eq_refl).
  cbn [held_gpios held_irqs] in *.
  intros _.
  destruct R1 as (P1 & _ & Q1). destruct R2 as (P2 & M2 & Q2).
  apply mem_false_iff in M2. cbn [In] in M2.
  repeat split; try assumption; tauto.
Qed.

Lemma pwm_led_init_loadable (b : board) (p : lines) :
  loadable b p -> fst (pwm_led_init b p nothing_held) = 0.
Proof.
  intros (LV & LD & LR & (P1 & P2 & PD) & (Q1 & Q2)).
  unfold pwm_led_init.
  pose proof (setup_pwm_led_gpios_succeeds_iff b p) as G.
  pose proof (setup_pwm_led_gpios_from_nothing b p) as F.
  destruct (setup_pwm_led_gpios b p nothing_held) as [r h1].
  cbn [fst snd] in G, F.
  assert (E : r = 0) by (apply G; repeat split; tauto).
  specialize (F E). subst r h1. cbn [Z.eqb negb].
  unfold setup_pwm_led_irqs.
  pose proof (setup_pwm_led_irq_shape b (down_button_gpio p)
                (mk_held [led_gpio p; up_button_gpio p; down_button_gpio p] []))
    as S1.
  destruct (setup_pwm_led_irq b (down_button_gpio p) _) as [[r1 i1] h2].
  destruct S1 as (I1 & R1 & H1 & _). subst i1.
  assert (E1 : r1 = 0) by (apply R1; repeat split; assumption).
  specialize (H1 E1). subst r1 h2. cbn [Z.eqb negb held_gpios held_irqs].
  pose proof (setup_pwm_led_irq_shape b (up_button_gpio p)
                (mk_held [led_gpio p; up_button_gpio p; down_button_gpio p]
                         [gpio_to_irq b (down_button_gpio p)])) as S2.
  destruct (setup_pwm_led_irq b (up_button_gpio p) _) as [[r2 i2] h3].
  destruct S2 as (I2 & R2 & _). subst i2.
  assert (E2 : r2 = 0).
  { apply R2. repeat split; try assumption.
    apply mem_false_iff. cbn [held_irqs In]. intros [H|[]]. congruence. }
  subst r2. reflexivity.
Qed.

(** When the module loads. From nothing held, [pwm_led_init] returns 0
    exactly when the three lines exist, are pairwise different and are
    granted, and the two button lines map to two different interrupts
    (numbers not negative) that are granted. It then holds exactly the
    three lines and the two interrupts, and the globals
    [down_button_irq] and [up_button_irq] are the numbers [gpio_to_irq]
    gave for the two button lines. *)
Theorem pwm_led_init_succeeds_iff_loadable (b : board) (p : lines) :
  (fst (pwm_led_init b p nothing_held) = 0 <-> loadable b p)
  /\ (fst (pwm_led_init b p nothing_held) = 0 ->
      snd (pwm_led_init b p nothing_held)
      = mk_held [led_gpio p; up_button_gpio p; down_button_gpio p]
                [gpio_to_irq b (up_button_gpio p);
                 gpio_to_irq b (down_button_gpio p)]
      /\ irqs_after_init b p nothing_held
         = (gpio_to_irq b (down_button_gpio p),
            gpio_to_irq b (up_button_gpio p))).
Proof.
  split.
  - split.
    + intros H. exact (proj1 (pwm_led_init_success b p H)).
    + apply pwm_led_init_loadable.
  - intros H. exact (proj2 (pwm_led_init_success b p H)).
Qed.

Lemma pwm_led_init_succeeds_iff_loadable_witness :
  fst (pwm_led_init plain_board (mk_lines 23 24 18) nothing_held) = 0
  /\ snd (pwm_led_init plain_board (mk_lines 23 24 18) nothing_held)
     = mk_held [18; 24; 23] [184; 183]
  /\ irqs_after_init plain_board (mk_lines 23 24 18) nothing_held = (183, 184).
Proof.
  assert (H : fst (pwm_led_init plain_board (mk_lines 23 24 18) nothing_held)
              = 0) by reflexivity.
  split; [exact H|].
  exact (proj2 (pwm_led_init_succeeds_iff_loadable
                  plain_board (mk_lines 23 24 18)) H).
Defined.

Lemma setup_pwm_led_irqs_failure (b : board) (p : lines) (h : held) :
  (forall irq, request_irq_result b irq <= 0) ->
  held_irqs h = [] ->
  fst (setup_pwm_led_irqs b p h) <> 0 ->
  snd (setup_pwm_led_irqs b p h) = h.
Proof.
  intros Hb Hh. unfold setup_pwm_led_irqs.
  pose proof (setup_pwm_led_irq_cases b (down_button_gpio p) h Hb) as C1.
  destruct (setup_pwm_led_irq b (down_button_gpio p) h) as [[r1 i1] h1].
  destruct C1 as [[N1 E1]|[Z1 E1]]; subst h1.
  - rewrite (proj2 (Z.eqb_neq r1 0) N1). cbn [negb fst snd]. reflexivity.
  - subst r1. cbn [Z.eqb negb].
    pose proof (setup_pwm_led_irq_cases b (up_button_gpio p)
                  (mk_held (held_gpios h) (i1 :: held_irqs h)) Hb) as C2.
    destruct (setup_pwm_led_irq b (up_button_gpio p) _) as [[r2 i2] h2].
    destruct C2 as [[N2 E2]|[Z2 E2]]; subst h2.
    + rewrite (proj2 (Z.eqb_neq r2 0) N2). cbn [negb fst snd]. intros _.
      unfold free_irq. cbn [held_gpios held_irqs]. rewrite Hh. cbn [remove].
      destruct (Z.eq_dec i1 i1) as [_|N]; [|contradiction].
      destruct h as [hg hi]. cbn [held_gpios held_irqs] in *. subst hi.
      reflexivity.
    + subst r2. cbn [Z.eqb negb fst snd]. intros N. contradiction.
Qed.

(** A failed load never leaves an interrupt handler behind. On a board
    that answers [request_irq] with 0 or a negative errno, whenever
    [pwm_led_init] from nothing held returns a code other than 0, no
    interrupt is registered when it returns (lines may still be
    requested). *)
Theorem pwm_led_init_failure_leaves_no_interrupt (b : board) (p : lines) :
  (forall irq, request_irq_result b irq <= 0) ->
  fst (pwm_led_init b p nothing_held) <> 0 ->
  held_irqs (snd (pwm_led_init b p nothing_held)) = [].
Proof.
  intros Hb. unfold pwm_led_init.
  pose proof (setup_pwm_led_gpios_keeps_irqs b p nothing_held) as K.
  destruct (setup_pwm_led_gpios b p nothing_held) as [r h1].
  cbn [snd nothing_held held_irqs] in K.
  destruct (negb (r =? 0)); cbn [fst snd]; [intros _; exact K|].
  pose proof (setup_pwm_led_irqs_failure b p h1 Hb K) as F.
  destruct (setup_pwm_led_irqs b p h1) as [r2 h2].
  cbn [fst snd] in F.
  destruct (Z.eqb_spec r2 0) as [E|N]; cbn [negb fst snd].
  - intros H. contradiction.
  - intros _. rewrite (F N). unfold unset_pwm_led_gpios, gpio_free.
    cbn [held_irqs]. exact K.
Qed.

Lemma pwm_led_init_failure_leaves_no_interrupt_witness :
  let b := mk_board (gpio_is_valid plain_board) (gpio_request_result plain_board)
                    (fun g => if g =? 24 then -6 else g + 160)
                    (request_irq_result plain_board) in
  ((forall irq, request_irq_result b irq <= 0)
   /\ fst (pwm_led_init b (mk_lines 23 24 18) nothing_held) <> 0)
  /\ fst (pwm_led_init b (mk_lines 23 24 18) nothing_held) = -6
  /\ held_irqs (snd (pwm_led_init b (mk_lines 23 24 18) nothing_held)) = [].
Proof.
  cbv zeta.
  set (b := mk_board (gpio_is_valid plain_board)
                     (gpio_request_result plain_board)
                     (fun g => if g =? 24 then -6 else g + 160)
                     (request_irq_result plain_board)).
  assert (H1 : forall irq, request_irq_result b irq <= 0)
    by (intros irq; cbn; discriminate).
  assert (H2 : fst (pwm_led_init b (mk_lines 23 24 18) nothing_held) <> 0)
    by (vm_compute; discriminate).
  split; [exact (conj H1 H2)|]. split; [reflexivity|].
  exact (pwm_led_init_failure_leaves_no_interrupt b (mk_lines 23 24 18) H1 H2).
Defined.

(** Load, then unload. After a load that returned 0 from nothing held,
    [pwm_led_exit] called with the interrupt numbers the load stored
    leaves no line requested, no interrupt registered and neither work
    item queued, and touches nothing else of the driver's state. *)
Theorem pwm_led_exit_releases_what_init_acquired
    (b : board) (p : lines) (s : Led.state) :
  fst (pwm_led_init b p nothing_held) = 0 ->
  pwm_led_exit p (fst (irqs_after_init b p nothing_held))
               (snd (irqs_after_init b p nothing_held)) s
               (snd (pwm_led_init b p nothing_held))
  = (Led.with_led_switch_work false (Led.with_led_level_work false s),
     nothing_held).
Proof.
  intros H.
  destruct (pwm_led_init_success b p H) as (L & Hh & Hi).
  rewrite Hh, Hi. cbn [fst snd].
  destruct L as (_ & _ & _ & (_ & _ & PD) & _).
  unfold pwm_led_exit, unset_pwm_led_gpios, gpio_free, free_irq,
    Work.cancel_led_switch_work, Work.cancel_led_level_work.
  cbn [held_gpios held_irqs]. rewrite remove_three_of_three.
  f_equal. unfold nothing_held. f_equal.
  cbn [remove].
  destruct (Z.eq_dec (gpio_to_irq b (down_button_gpio p))
                     (gpio_to_irq b (up_button_gpio p))) as [E|_];
    [contradiction|].
  destruct (Z.eq_dec (gpio_to_irq b (down_button_gpio p))
                     (gpio_to_irq b (down_button_gpio p))) as [_|N];
    [|contradiction].
  cbn [remove].
  destruct (Z.eq_dec (gpio_to_irq b (up_button_gpio p))
                     (gpio_to_irq b (up_button_gpio p))) as [_|N];
    [reflexivity|contradiction].
Qed.

Lemma pwm_led_exit_releases_what_init_acquired_witness :
  fst (pwm_led_init plain_board (mk_lines 23 24 18) nothing_held) = 0
  /\ pwm_led_exit (mk_lines 23 24 18) 183 184 Sample.dimmed
       (snd (pwm_led_init plain_board (mk_lines 23 24 18) nothing_held))
     = (Led.with_led_switch_work false
          (Led.with_led_level_work false Sample.dimmed),
        nothing_held).
Proof.
  assert (H : fst (pwm_led_init plain_board (mk_lines 23 24 18) nothing_held)
              = 0) by reflexivity.
  split; [exact H|].
  exact (pwm_led_exit_releases_what_init_acquired
           plain_board (mk_lines 23 24 18) Sample.dimmed H).
Defined.

End LoadUnload.

(** ** An edge while the module unloads *)

Section UnloadWindow.
Import CInt Time64 Led Startup Teardown.



End UnloadWindow.
